(** * Fitness-Coach-App: the plan-generation pipeline

    A shallow embedding of [src/services/aiService.js] (the retry executor,
    the motivation-quote call, the plan call with its bundled fallback) and
    of the multi-step input form that gathers the user profile, followed by
    the properties the specification states about them.

    Conventions.
    - JavaScript strings are [string]s holding their UTF-8 bytes.
    - An asynchronous function is a computation in the monad [M]: it reads
      and extends the chronological trace of observable events (requests to
      the model endpoint, timer waits, console output) and either returns a
      value or throws an [Error].  Awaiting is sequencing.
    - The model endpoint is a [Client]: the outcome of its n-th call. *)

From Stdlib Require Import Ascii String ZArith DecimalString.
From stdpp Require Import base option list strings gmap.

#[local] Open Scope string_scope.
#[local] Open Scope list_scope.
#[local] Open Scope Z_scope.
#[local] Set Warnings "-register-all".

(** * The program *)

(** ** Characters and strings *)

Definition dquote : ascii := "034"%char.
Definition LF : ascii := "010"%char.

(** [unq s] is [s] with every apostrophe replaced by a double quote; the
    literals of the source that contain double quotes are written with
    apostrophes and passed through [unq]. *)
Fixpoint unq (s : string) : string :=
  match s with
  | EmptyString => EmptyString
  | String c r => String (if Ascii.eqb c "'"%char then dquote else c) (unq r)
  end.

(** The lines of a multi-line template chunk, joined by line feeds. *)
Fixpoint lines (l : list string) : string :=
  match l with
  | [] => ""
  | [s] => s
  | s :: r => s +:+ String LF (lines r)
  end.

(** Decimal rendering of an integer, as [String(n)] gives it. *)
Definition Z_to_string (n : Z) : string := NilZero.string_of_int (Z.to_int n).
Definition nat_to_string (n : nat) : string := Z_to_string (Z.of_nat n).

(** ** Errors, results and the effect monad *)

(** The values this code throws and catches.  [APIError] is what the client
    library rejects with: [status] is the HTTP status, absent for
    connection-level failures.  The other three carry no [status]. *)
Inductive Error : Type :=
| APIError (status : option Z) (message : string)
| TypeError (message : string)
| SyntaxError (message : string)
| PlainError (message : string).

(** [error.status]: [None] stands for [undefined]. *)
Definition status (e : Error) : option Z :=
  match e with
  | APIError s _ => s
  | _ => None
  end.

Inductive Result (A : Type) : Type :=
| Ok (a : A)
| Throw (e : Error).
Arguments Ok {A} a.
Arguments Throw {A} e.

Record ChatMessage : Type := { role : string; content : string }.

Record ChatRequest : Type := {
  model : string;
  messages : list ChatMessage;
  response_format : option string
}.

(** The completion object, as the client library types it: a list of
    choices, each with a message whose content is a string or [null]. *)
Record ResponseMessage : Type := { msg_content : option string }.
Record Choice : Type := { message : ResponseMessage }.
Record Response : Type := { choices : list Choice }.

Inductive Level : Type := LogLevel | WarnLevel | ErrorLevel.

Inductive LogArg : Type :=
| LStr (s : string)
| LErr (e : Error).

Inductive Event : Type :=
| Request (req : ChatRequest)
| Wait (ms : Z)
| Console (level : Level) (args : list LogArg).

Definition Trace : Type := list Event.

Definition M (A : Type) : Type := Trace -> Result A * Trace.

#[export] Instance M_ret : MRet M := fun A a t => (Ok a, t).

#[export] Instance M_bind : MBind M := fun A B f m t =>
  match m t with
  | (Ok a, t') => f a t'
  | (Throw e, t') => (Throw e, t')
  end.

Definition throw {A : Type} (e : Error) : M A := fun t => (Throw e, t).

(** [try { body } catch (error) { handler error }] *)
Definition try_catch {A : Type} (body : M A) (handler : Error -> M A) : M A :=
  fun t =>
    match body t with
    | (Ok a, t') => (Ok a, t')
    | (Throw e, t') => handler e t'
    end.

Definition emit (ev : Event) : M unit := fun t => (Ok tt, t ++ [ev]).

Definition console_log (args : list LogArg) : M unit := emit (Console LogLevel args).
Definition console_warn (args : list LogArg) : M unit := emit (Console WarnLevel args).
Definition console_error (args : list LogArg) : M unit := emit (Console ErrorLevel args).

(** [await new Promise(resolve => setTimeout(resolve, delay))] *)
Definition sleep (delay : Z) : M unit := emit (Wait delay).

(** The number of requests issued so far. *)
Definition is_request (ev : Event) : bool :=
  match ev with Request _ => true | _ => false end.
Definition requests (t : Trace) : nat := length (List.filter is_request t).

(** What the wider world does with the n-th request. *)
Definition Client : Type := nat -> ChatRequest -> Result Response.

(** [openai.chat.completions.create(req)] *)
Definition create (openai : Client) (req : ChatRequest) : M Response :=
  fun t => (openai (requests t) req, t ++ [Request req]).

(** ** retryWithBackoff *)

(** JavaScript's [!x], [x >= n] and [x === n] on a status that is a number
    or [undefined]. *)
Definition js_not (s : option Z) : bool :=
  match s with None => true | Some n => n =? 0 end.
Definition js_ge (s : option Z) (n : Z) : bool :=
  match s with None => false | Some m => n <=? m end.
Definition js_seq (s : option Z) (n : Z) : bool :=
  match s with None => false | Some m => m =? n end.

Definition isRetryable (error : Error) : bool :=
  js_not (status error) || js_ge (status error) 500 || js_seq (status error) 429.

Definition retry_message (delay : Z) (retries : nat) : string :=
  "API call failed. Retrying in " +:+ Z_to_string delay +:+ "ms... (" +:+
  nat_to_string retries +:+ " attempts left)".

Fixpoint retryWithBackoff {A : Type} (operation : M A) (retries : nat) (delay : Z) : M A :=
  try_catch operation (fun error =>
    match retries with
    | O => throw error
    | S retries' =>
        if negb (isRetryable error) then throw error
        else
          console_log [LStr (retry_message delay retries)];;
          sleep delay;;
          retryWithBackoff operation retries' (delay * 2)
    end).

(** ** JSON values and JSON.parse *)

(** A number is kept as the exact decimal [m * 10^e] its literal denotes;
    rounding to binary64 (and the sign of zero) is not modelled.  An object
    is a finite map from property names to values. *)
Inductive value : Type :=
| VNull
| VBool (b : bool)
| VNum (m e : Z)
| VStr (s : string)
| VArr (l : list value)
| VObj (o : gmap string value).

(** [v[k]] for an own property of an object. *)
Definition prop (k : string) (v : value) : option value :=
  match v with
  | VObj o => o !! k
  | _ => None
  end.

Definition code (c : ascii) : Z := Z.of_N (N_of_ascii c).
Definition chr (n : Z) : ascii := ascii_of_N (Z.to_N n).

Definition is_digit (c : ascii) : bool := (48 <=? code c) && (code c <=? 57).

(** The four white space characters of the JSON grammar. *)
Definition is_json_ws (c : ascii) : bool :=
  (code c =? 32) || (code c =? 9) || (code c =? 10) || (code c =? 13).

Fixpoint skip_ws (s : string) : string :=
  match s with
  | String c r => if is_json_ws c then skip_ws r else s
  | EmptyString => s
  end.

Fixpoint strip_prefix (p s : string) : option string :=
  match p, s with
  | EmptyString, _ => Some s
  | String a p', String b s' => if Ascii.eqb a b then strip_prefix p' s' else None
  | String _ _, EmptyString => None
  end.

(** The longest run of decimal digits at the head of [s], and what follows. *)
Fixpoint take_digits (s : string) : string * string :=
  match s with
  | String c r =>
      if is_digit c then let '(ds, r') := take_digits r in (String c ds, r') else (EmptyString, s)
  | EmptyString => (EmptyString, s)
  end.

Fixpoint digits_value (acc : Z) (ds : string) : Z :=
  match ds with
  | String c r => digits_value (10 * acc + (code c - 48)) r
  | EmptyString => acc
  end.

(** The exponent part [e], [e+] or [e-] followed by digits; absent is 0. *)
Definition scan_exponent (s : string) : option (Z * string) :=
  match s with
  | String c r =>
      if (code c =? 101) || (code c =? 69) then
        let '(neg, r1) :=
          match r with
          | String g r' =>
              if code g =? 45 then (true, r') else if code g =? 43 then (false, r') else (false, r)
          | EmptyString => (false, r)
          end in
        let '(ds, r2) := take_digits r1 in
        match ds with
        | EmptyString => None
        | _ => Some (if neg : bool then - digits_value 0 ds else digits_value 0 ds, r2)
        end
      else Some (0, s)
  | EmptyString => Some (0, s)
  end.

(** The fraction part: a point followed by at least one digit. *)
Definition scan_fraction (s : string) : option (string * string) :=
  match s with
  | String c r =>
      if code c =? 46 then
        let '(fs, r') := take_digits r in
        match fs with EmptyString => None | _ => Some (fs, r') end
      else Some (EmptyString, s)
  | EmptyString => Some (EmptyString, s)
  end.

(** The integer part: a single 0, or a digit 1-9 followed by digits. *)
Definition scan_integer (s : string) : option (string * string) :=
  match s with
  | String c r =>
      if code c =? 48 then Some (String c EmptyString, r)
      else if is_digit c then Some (take_digits s)
      else None
  | EmptyString => None
  end.

Definition scan_number (s : string) : option (value * string) :=
  let '(neg, s1) :=
    match s with
    | String c r => if code c =? 45 then (true, r) else (false, s)
    | EmptyString => (false, s)
    end in
  '(ip, s2) ← scan_integer s1;
  '(fp, s3) ← scan_fraction s2;
  '(ex, s4) ← scan_exponent s3;
  let m := digits_value 0 (ip +:+ fp) in
  Some (VNum (if neg : bool then - m else m) (ex - Z.of_nat (String.length fp)), s4).

(** The content of a string literal: bytes taken as they are, and the
    UTF-16 code units of [\uXXXX] escapes. *)
Inductive item : Type :=
| IByte (c : ascii)
| IUnit (u : Z).

Definition hex_digit (c : ascii) : option Z :=
  let n := code c in
  if (48 <=? n) && (n <=? 57) then Some (n - 48)
  else if (65 <=? n) && (n <=? 70) then Some (n - 55)
  else if (97 <=? n) && (n <=? 102) then Some (n - 87)
  else None.

Definition hex4 (a b c d : ascii) : option Z :=
  x ← hex_digit a; y ← hex_digit b; z ← hex_digit c; w ← hex_digit d;
  Some (((x * 16 + y) * 16 + z) * 16 + w).

Definition simple_escape (c : ascii) : option ascii :=
  let n := code c in
  if (n =? 34) || (n =? 92) || (n =? 47) then Some c
  else if n =? 98 then Some (chr 8)
  else if n =? 102 then Some (chr 12)
  else if n =? 110 then Some (chr 10)
  else if n =? 114 then Some (chr 13)
  else if n =? 116 then Some (chr 9)
  else None.

(** From just after the opening quote up to and including the closing one. *)
Fixpoint scan_string (s : string) : option (list item * string) :=
  match s with
  | EmptyString => None
  | String c r =>
      if code c =? 34 then Some ([], r)
      else if code c =? 92 then
        match r with
        | String e r2 =>
            match simple_escape e with
            | Some b => '(l, r') ← scan_string r2; Some (IByte b :: l, r')
            | None =>
                if code e =? 117 then
                  match r2 with
                  | String h1 (String h2 (String h3 (String h4 r3))) =>
                      u ← hex4 h1 h2 h3 h4;
                      '(l, r') ← scan_string r3; Some (IUnit u :: l, r')
                  | _ => None
                  end
                else None
            end
        | EmptyString => None
        end
      else if code c <? 32 then None
      else '(l, r') ← scan_string r; Some (IByte c :: l, r')
  end.

(** UTF-8 bytes of a code point (a lone surrogate gets the three-byte form). *)
Definition utf8 (cp : Z) : string :=
  if cp <? 128 then String (chr cp) EmptyString
  else if cp <? 2048 then
    String (chr (192 + cp / 64)) (String (chr (128 + cp mod 64)) EmptyString)
  else if cp <? 65536 then
    String (chr (224 + cp / 4096))
      (String (chr (128 + (cp / 64) mod 64)) (String (chr (128 + cp mod 64)) EmptyString))
  else
    String (chr (240 + cp / 262144))
      (String (chr (128 + (cp / 4096) mod 64))
        (String (chr (128 + (cp / 64) mod 64)) (String (chr (128 + cp mod 64)) EmptyString))).

Definition is_high_surrogate (u : Z) : bool := (55296 <=? u) && (u <=? 56319).
Definition is_low_surrogate (u : Z) : bool := (56320 <=? u) && (u <=? 57343).

Fixpoint items_to_string (l : list item) : string :=
  match l with
  | [] => EmptyString
  | IByte c :: r => String c (items_to_string r)
  | IUnit u :: r =>
      match r with
      | IUnit v :: r' =>
          if is_high_surrogate u && is_low_surrogate v
          then utf8 (65536 + (u - 55296) * 1024 + (v - 56320)) +:+ items_to_string r'
          else utf8 u +:+ items_to_string r
      | _ => utf8 u +:+ items_to_string r
      end
  end.

Definition parse_string (s : string) : option (string * string) :=
  '(l, r) ← scan_string s; Some (items_to_string l, r).

Definition head_is (n : Z) (s : string) : option string :=
  match s with
  | String c r => if code c =? n then Some r else None
  | EmptyString => None
  end.

(** Recursive descent on the JSON grammar.  Each call consumes one unit of
    [fuel]; between two nested calls at most one is made without consuming a
    character, so [2 * length + 2] units are never used up. *)
Fixpoint parse_value (fuel : nat) (s : string) : option (value * string) :=
  match fuel with
  | O => None
  | S f =>
      let s := skip_ws s in
      match s with
      | EmptyString => None
      | String c r =>
          if code c =? 123 then
            match head_is 125 (skip_ws r) with
            | Some r' => Some (VObj ∅, r')
            | None => '(o, r') ← parse_members f r ∅; Some (VObj o, r')
            end
          else if code c =? 91 then
            match head_is 93 (skip_ws r) with
            | Some r' => Some (VArr [], r')
            | None => '(l, r') ← parse_elements f r; Some (VArr l, r')
            end
          else if code c =? 34 then
            '(x, r') ← parse_string r; Some (VStr x, r')
          else
            match strip_prefix "null" s, strip_prefix "true" s, strip_prefix "false" s with
            | Some r', _, _ => Some (VNull, r')
            | _, Some r', _ => Some (VBool true, r')
            | _, _, Some r' => Some (VBool false, r')
            | _, _, _ => scan_number s
            end
      end
  end
with parse_elements (fuel : nat) (s : string) : option (list value * string) :=
  match fuel with
  | O => None
  | S f =>
      '(v, r) ← parse_value f s;
      match skip_ws r with
      | String c r' =>
          if code c =? 44 then '(vs, r'') ← parse_elements f r'; Some (v :: vs, r'')
          else if code c =? 93 then Some ([v], r')
          else None
      | EmptyString => None
      end
  end
with parse_members (fuel : nat) (s : string) (acc : gmap string value)
    : option (gmap string value * string) :=
  match fuel with
  | O => None
  | S f =>
      r ← head_is 34 (skip_ws s);
      '(k, r1) ← parse_string r;
      r2 ← head_is 58 (skip_ws r1);
      '(v, r3) ← parse_value f r2;
      let acc' := <[k := v]> acc in
      match skip_ws r3 with
      | String c r4 =>
          if code c =? 44 then parse_members f r4 acc'
          else if code c =? 125 then Some (acc', r4)
          else None
      | EmptyString => None
      end
  end.

(** [JSON.parse(text)]: the value, or a [SyntaxError] (whose message is
    engine-defined and not inspected by this code). *)
Definition JSON_parse (text : string) : Result value :=
  match parse_value (2 * String.length text + 2) text with
  | Some (v, r) =>
      match skip_ws r with
      | EmptyString => Ok v
      | _ => Throw (SyntaxError "Unexpected non-whitespace character after JSON")
      end
  | None => Throw (SyntaxError "Unexpected token in JSON")
  end.

(** ** White space, trim *)

(** The code points of WhiteSpace and LineTerminator, which [trim],
    [parseFloat] and the regular expression class [\s] share. *)
Definition js_whitespace : list Z :=
  [9; 10; 11; 12; 13; 32; 160; 5760; 8192; 8193; 8194; 8195; 8196; 8197; 8198;
   8199; 8200; 8201; 8202; 8232; 8233; 8239; 8287; 12288; 65279].

(** [s] is the UTF-8 form of exactly one white space character. *)
Definition is_ws_seq (s : string) : bool :=
  existsb (fun cp => String.eqb (utf8 cp) s) js_whitespace.

Definition str1 (a : ascii) : string := String a EmptyString.
Definition str2 (a b : ascii) : string := String a (String b EmptyString).
Definition str3 (a b c : ascii) : string := String a (String b (String c EmptyString)).

Fixpoint trimStart (s : string) : string :=
  match s with
  | EmptyString => s
  | String a r =>
      if is_ws_seq (str1 a) then trimStart r
      else
        match r with
        | String b r2 =>
            if is_ws_seq (str2 a b) then trimStart r2
            else
              match r2 with
              | String c r3 => if is_ws_seq (str3 a b c) then trimStart r3 else s
              | EmptyString => s
              end
        | EmptyString => s
        end
  end.

Fixpoint trimEnd (s : string) : string :=
  match s with
  | EmptyString => s
  | String a r =>
      let r' := trimEnd r in
      if is_ws_seq (String a r') then EmptyString else String a r'
  end.

Definition trim (s : string) : string := trimEnd (trimStart s).

(** ** The user profile *)

(** The form data, which is the [userData] of the service: every field holds
    the text of its input. *)
Record FormData : Type := {
  name : string;
  age : string;
  gender : string;
  height : string;
  weight : string;
  goal : string;
  fitnessLevel : string;
  location : string;
  dietPreference : string;
  sleepHours : string;
  waterIntake : string;
  stressLevel : string
}.

Inductive Field : Type :=
| FName | FAge | FGender | FHeight | FWeight | FGoal | FFitnessLevel
| FLocation | FDietPreference | FSleepHours | FWaterIntake | FStressLevel.

#[export] Instance Field_eq_dec : EqDecision Field := ltac:(solve_decision).

Definition all_fields : list Field :=
  [FName; FAge; FGender; FHeight; FWeight; FGoal; FFitnessLevel;
   FLocation; FDietPreference; FSleepHours; FWaterIntake; FStressLevel].

(** [userData[f]] *)
Definition field (f : Field) (u : FormData) : string :=
  match f with
  | FName => name u | FAge => age u | FGender => gender u
  | FHeight => height u | FWeight => weight u | FGoal => goal u
  | FFitnessLevel => fitnessLevel u | FLocation => location u
  | FDietPreference => dietPreference u | FSleepHours => sleepHours u
  | FWaterIntake => waterIntake u | FStressLevel => stressLevel u
  end.

(** ** Template literals *)

(** A template literal is its sequence of literal chunks and substitutions. *)
Inductive chunk : Type :=
| Lit (s : string)
| Sub (f : Field).

Fixpoint render (tpl : list chunk) (u : FormData) : string :=
  match tpl with
  | [] => EmptyString
  | Lit s :: r => s +:+ render r u
  | Sub f :: r => field f u +:+ render r u
  end.

Definition is_sub (f : Field) (c : chunk) : bool :=
  match c with
  | Sub g => bool_decide (f = g)
  | Lit _ => false
  end.

(** How many times the template substitutes field [f]. *)
Definition substitutions (f : Field) (tpl : list chunk) : nat :=
  length (List.filter (is_sub f) tpl).

(** The number of (possibly overlapping) occurrences of [p] in [s]. *)
Fixpoint occurrences (p s : string) : nat :=
  match s with
  | EmptyString => O
  | String _ r =>
      ((if strip_prefix p s is Some _ then 1 else 0) + occurrences p r)%nat
  end.

(** [systemPrompt] of [generateMotivationQuote] *)
Definition quotePrompt : list chunk :=
  [ Lit (lines [
      "";
      "    You are an inspiring fitness coach. Generate a short, powerful, 1-sentence daily motivational quote for " ]);
    Sub FName;
    Lit (lines [
      ".";
      "    Context:";
      "    - Goal: " ]);
    Sub FGoal;
    Lit (lines [
      "";
      "    - Level: " ]);
    Sub FFitnessLevel;
    Lit (unq (lines [
      "";
      "    ";
      "    CRITICAL: Output ONLY the quote text. No quotation marks, no 'Author:', no tags.";
      "    " ])) ].

(** [systemPrompt] of [generateFitnessPlan] *)
Definition planPrompt : list chunk :=
  [ Lit (lines [
      "";
      "    You are an expert fitness coach and nutritionist. ";
      "    Generate a 7-day Workout and Diet plan for " ]);
    Sub FName;
    Lit (lines [
      ":";
      "    - Profile: " ]);
    Sub FAge; Lit " years old, "; Sub FGender; Lit ", "; Sub FWeight; Lit "kg, ";
    Sub FHeight;
    Lit (lines [
      "cm.";
      "    - Fitness Level: " ]);
    Sub FFitnessLevel;
    Lit (lines [
      "";
      "    - Goal: " ]);
    Sub FGoal;
    Lit (lines [
      "";
      "    - Workout Location: " ]);
    Sub FLocation;
    Lit (lines [
      "";
      "    - Dietary Preference: " ]);
    Sub FDietPreference;
    Lit (unq (lines [
      "";
      " ";
      "    IMPORTANT: Return ONLY valid JSON. Do not add markdown or text outside the JSON.";
      "    The response must follow this exact structure:";
      "    {";
      "      'workout_plan': [";
      "        { ";
      "          'day': 'Monday', ";
      "          'focus': 'Muscle Group', ";
      "          'exercises': [";
      "            { 'name': 'Exercise', 'sets': '3', 'reps': '12', 'tips': 'Tip' }";
      "          ] ";
      "        },";
      "        ... (repeat for 7 days)";
      "      ],";
      "      'diet_plan': [";
      "        { ";
      "          'meal': 'Breakfast', ";
      "          'food': 'Description', ";
      "          'calories': 400, ";
      "          'protein': '30g', ";
      "          'carbs': '40g', ";
      "          'fats': '10g' ";
      "        },";
      "        ... (include Breakfast, Lunch, Snack, Dinner)";
      "      ],";
      "      'summary': {";
      "        'daily_calories': 2500,";
      "        'macros': { 'protein': '150g', 'carbs': '300g', 'fats': '70g' }";
      "      }";
      "    }";
      "  " ])) ].

(** ** The bundled fallback plan *)

Definition exercise (n sets reps tips : string) : value :=
  VObj {[ "name" := VStr n; "sets" := VStr sets; "reps" := VStr reps; "tips" := VStr tips ]}.

Definition workout_day (day focus : string) (exercises : list value) : value :=
  VObj {[ "day" := VStr day; "focus" := VStr focus; "exercises" := VArr exercises ]}.

Definition meal_entry (meal food : string) (calories : Z) (protein carbs fats : string) : value :=
  VObj {[ "meal" := VStr meal; "food" := VStr food; "calories" := VNum calories 0;
          "protein" := VStr protein; "carbs" := VStr carbs; "fats" := VStr fats ]}.

(** The object literal returned by the catch block of [generateFitnessPlan]. *)
Definition FALLBACK_PLAN : value :=
  VObj {[
    "workout_plan" := VArr [
      workout_day "Monday" "Full Body Power" [
        exercise "Barbell Squats" "4" "8-10" "Keep chest up and core tight";
        exercise "Bench Press" "3" "10" "Control the descent";
        exercise "Bent Over Rows" "3" "12" "Squeeze shoulder blades";
        exercise "Plank" "3" "60s" "Maintain straight line" ];
      workout_day "Tuesday" "Active Recovery" [
        exercise "Light Jogging" "1" "20 mins" "Keep comfortable pace";
        exercise "Stretching Routine" "1" "15 mins" "Focus on tight areas" ];
      workout_day "Wednesday" "Upper Body Strength" [
        exercise "Overhead Press" "3" "10" "Don't arch back";
        exercise "Pull Ups" "3" "Max" "Full range of motion";
        exercise "Dumbbell Curls" "3" "12" "Isolate biceps" ];
      workout_day "Thursday" "Rest Day" [
        exercise "Walking" "1" "30 mins" "Leisurely pace" ];
      workout_day "Friday" "Lower Body & Core" [
        exercise "Romanian Deadlifts" "3" "10" "Hinge at hips";
        exercise "Lunges" "3" "12/leg" "Knee shouldn't pass toe";
        exercise "Leg Raises" "3" "15" "Control movement" ];
      workout_day "Saturday" "Cardio & HIIT" [
        exercise "Burpees" "3" "10" "Explosive movement";
        exercise "Mountain Climbers" "3" "30s" "Keep hips low";
        exercise "Jump Rope" "3" "2 mins" "Stay on toes" ];
      workout_day "Sunday" "Rest & Prep" [
        exercise "Yoga" "1" "20 mins" "Relax and breathe" ] ];
    "diet_plan" := VArr [
      meal_entry "Breakfast" "Oatmeal with Berries & Protein Shake" 450 "30g" "50g" "10g";
      meal_entry "Lunch" "Grilled Chicken Salad with Quinoa" 600 "45g" "40g" "20g";
      meal_entry "Snack" "Greek Yogurt & Almonds" 250 "15g" "10g" "15g";
      meal_entry "Dinner" "Baked Salmon with Steamed Broccoli" 500 "40g" "10g" "25g" ];
    "summary" := VObj {[
      "daily_calories" := VNum 2200 0;
      "macros" := VObj {[ "protein" := VStr "160g"; "carbs" := VStr "200g"; "fats" := VStr "80g" ]} ]}
  ]}.

(** ** generateMotivationQuote and generateFitnessPlan *)

Definition MODEL : string := "google/gemini-2.0-flash-exp:free".

(** [response.choices[0].message.content]: reading [message] of a missing
    first choice throws a [TypeError]. *)
Definition first_choice_content (response : Response) : M (option string) :=
  match choices response with
  | c :: _ => mret (msg_content (message c))
  | [] => throw (TypeError "Cannot read properties of undefined (reading 'message')")
  end.

(** [!content] for a content that is a string or [null]. *)
Definition js_not_content (content : option string) : bool :=
  match content with
  | None => true
  | Some s => String.eqb s ""
  end.

(** [String(content)], which [JSON.parse] applies to its argument. *)
Definition js_to_string (content : option string) : string :=
  match content with
  | Some s => s
  | None => "null"
  end.

Definition from_result {A : Type} (r : Result A) : M A := fun t => (r, t).

Definition QUOTE_FALLBACK : string := "Consistency is the key to progress. Keep showing up!".

Definition quote_request (userData : FormData) : ChatRequest :=
  {| model := MODEL;
     messages := [ {| role := "user"; content := render quotePrompt userData |} ];
     response_format := None |}.

(** The operation [generateMotivationQuote] passes to the executor. *)
Definition quote_operation (openai : Client) (userData : FormData) : M string :=
  console_log [LStr "Generating motivation quote for:"; LStr (name userData); LStr (goal userData)];;
  response ← create openai (quote_request userData);
  content ← first_choice_content response;
  quote ← match content with
          | Some s => mret (trim s)
          | None => throw (TypeError "Cannot read properties of null (reading 'trim')")
          end;
  console_log [LStr "AI Quote generated successfully:"; LStr quote];;
  mret quote.

Definition generateMotivationQuote (openai : Client) (userData : FormData) : M string :=
  try_catch
    (retryWithBackoff (quote_operation openai userData) 2 1000)
    (fun error =>
       console_error [LStr "AI Service Error (Motivation Quote):"; LErr error];;
       (if js_seq (status error) 402 || js_seq (status error) 429
        then console_warn [LStr "Rate limited or balance exhausted. Using local fallback."]
        else mret tt);;
       mret QUOTE_FALLBACK).

Definition plan_request (userData : FormData) : ChatRequest :=
  {| model := MODEL;
     messages := [ {| role := "user"; content := render planPrompt userData |} ];
     response_format := Some "json_object" |}.

Definition FALLBACK_WARNING : Event :=
  Console WarnLevel [LStr "Generating fallback plan due to API failure."].

Definition generateFitnessPlan (openai : Client) (userData : FormData) : M value :=
  try_catch
    (response ← retryWithBackoff (create openai (plan_request userData)) 2 1000;
     content ← first_choice_content response;
     if js_not_content content
     then throw (PlainError "The AI returned an empty response. Please try again.")
     else from_result (JSON_parse (js_to_string content)))
    (fun error =>
       console_error [LStr "Failed to generate fitness plan:"; LErr error];;
       emit FALLBACK_WARNING;;
       mret FALLBACK_PLAN).

(** ** The input form (InputForm) *)

(** A Number as far as the form looks at it: not a number, an infinity, or
    a finite value given by a decimal [m * 10^e].  [parseFloat] returns the
    binary64 nearest to the decimal it reads; a finite result other than
    zero is given by that decimal, which has its sign, and zero by
    [Dec 0 0]. *)
Inductive Number : Type :=
| NaN
| Infinity (negative : bool)
| Dec (m e : Z).

(** [x > 0] *)
Definition js_gt_zero (x : Number) : bool :=
  match x with
  | NaN => false
  | Infinity negative => negb negative
  | Dec m _ => 0 <? m
  end.

(** The decimal that the longest numeric prefix of the text denotes, before
    it is rounded. *)
Definition parseDecimal (input : string) : Number :=
  let s := trimStart input in
  let '(neg, s1) :=
    match s with
    | String c r =>
        if code c =? 45 then (true, r) else if code c =? 43 then (false, r) else (false, s)
    | EmptyString => (false, s)
    end in
  if strip_prefix "Infinity" s1 is Some _ then Infinity neg
  else
    let '(ip, s2) := take_digits s1 in
    let '(fp, s3) :=
      match s2 with
      | String c r => if code c =? 46 then take_digits r else (EmptyString, s2)
      | EmptyString => (EmptyString, s2)
      end in
    match ip +:+ fp with
    | EmptyString => NaN
    | ds =>
        let ex := match scan_exponent s3 with Some (x, _) => x | None => 0 end in
        let m := digits_value 0 ds in
        Dec (if neg : bool then - m else m) (ex - Z.of_nat (String.length fp))
    end.

(** Rounding to binary64, to nearest with ties to even: a decimal of
    magnitude at most [2^-1075], half the least positive binary64, becomes
    zero, and one of magnitude at least [2^1024 - 2^970], half way from the
    greatest finite binary64 to [2^1024], becomes an infinity. *)
Definition rounds_to_zero (m e : Z) : bool :=
  if 0 <=? e then m =? 0 else Z.abs m * 2 ^ 1075 <=? 10 ^ (- e).

Definition rounds_to_infinity (m e : Z) : bool :=
  if 0 <=? e then 2 ^ 1024 - 2 ^ 970 <=? Z.abs m * 10 ^ e
  else (2 ^ 1024 - 2 ^ 970) * 10 ^ (- e) <=? Z.abs m.

Definition toBinary64 (x : Number) : Number :=
  match x with
  | Dec m e =>
      if rounds_to_infinity m e then Infinity (m <? 0)
      else if rounds_to_zero m e then Dec 0 0
      else Dec m e
  | _ => x
  end.

Definition parseFloat (input : string) : Number := toBinary64 (parseDecimal input).

(** [/^\d*\.?\d*$/.test(value)] *)
Definition numeric_regex (v : string) : bool :=
  let '(_, r) := take_digits v in
  let r1 :=
    match r with
    | String c r' => if code c =? 46 then r' else r
    | EmptyString => r
    end in
  let '(_, r2) := take_digits r1 in
  String.eqb r2 "".

Definition is_letter (c : ascii) : bool :=
  ((97 <=? code c) && (code c <=? 122)) || ((65 <=? code c) && (code c <=? 90)).

(** [/^[a-zA-Z\s]*$/.test(value)] *)
Fixpoint name_regex (v : string) : bool :=
  match v with
  | EmptyString => true
  | String a r =>
      if is_letter a || is_ws_seq (str1 a) then name_regex r
      else
        match r with
        | String b r2 =>
            if is_ws_seq (str2 a b) then name_regex r2
            else
              match r2 with
              | String c r3 => if is_ws_seq (str3 a b c) then name_regex r3 else false
              | EmptyString => false
              end
        | EmptyString => false
        end
  end.

(** [{ ...prev, [fieldName]: value }] *)
Definition set_field (f : Field) (v : string) (u : FormData) : FormData :=
  {| name := if bool_decide (f = FName) then v else name u;
     age := if bool_decide (f = FAge) then v else age u;
     gender := if bool_decide (f = FGender) then v else gender u;
     height := if bool_decide (f = FHeight) then v else height u;
     weight := if bool_decide (f = FWeight) then v else weight u;
     goal := if bool_decide (f = FGoal) then v else goal u;
     fitnessLevel := if bool_decide (f = FFitnessLevel) then v else fitnessLevel u;
     location := if bool_decide (f = FLocation) then v else location u;
     dietPreference := if bool_decide (f = FDietPreference) then v else dietPreference u;
     sleepHours := if bool_decide (f = FSleepHours) then v else sleepHours u;
     waterIntake := if bool_decide (f = FWaterIntake) then v else waterIntake u;
     stressLevel := if bool_decide (f = FStressLevel) then v else stressLevel u |}.

Record FormState : Type := {
  currentStep : Z;
  formData : FormData
}.

Definition initialFormData : FormData :=
  {| name := ""; age := ""; gender := ""; height := ""; weight := "";
     goal := "Weight Loss"; fitnessLevel := "Beginner"; location := "Gym";
     dietPreference := ""; sleepHours := ""; waterIntake := ""; stressLevel := "" |}.

Definition initialState : FormState :=
  {| currentStep := 1; formData := initialFormData |}.

Definition numericFields : list Field :=
  [FAge; FHeight; FWeight; FSleepHours; FWaterIntake].

Definition setFormData (f : Field) (v : string) (st : FormState) : FormState :=
  {| currentStep := currentStep st; formData := set_field f v (formData st) |}.

Definition updateField (fieldName : Field) (v : string) (st : FormState) : FormState :=
  if bool_decide (fieldName ∈ numericFields) then
    let isValidNumber := String.eqb v "" || numeric_regex v in
    if isValidNumber then setFormData fieldName v st else st
  else if bool_decide (fieldName = FName) then
    let isValidName := String.eqb v "" || name_regex v in
    if isValidName then setFormData fieldName v st else st
  else setFormData fieldName v st.

(** A string is truthy when it is not empty. *)
Definition truthy (s : string) : bool := negb (String.eqb s "").

Definition isCurrentStepValid (st : FormState) : bool :=
  let d := formData st in
  if currentStep st =? 1 then
    let hasName := (0 <? String.length (trim (name d)))%nat in
    let hasGender := truthy (gender d) in
    let hasValidAge := truthy (age d) && js_gt_zero (parseFloat (age d)) in
    let hasValidHeight := truthy (height d) && js_gt_zero (parseFloat (height d)) in
    let hasValidWeight := truthy (weight d) && js_gt_zero (parseFloat (weight d)) in
    let hasValidSleep := truthy (sleepHours d) && js_gt_zero (parseFloat (sleepHours d)) in
    let hasValidWater := truthy (waterIntake d) && js_gt_zero (parseFloat (waterIntake d)) in
    hasName && hasGender && hasValidAge && hasValidHeight &&
    hasValidWeight && hasValidSleep && hasValidWater
  else if currentStep st =? 2 then
    truthy (goal d) && truthy (fitnessLevel d) && truthy (stressLevel d)
  else if currentStep st =? 3 then
    truthy (location d) && truthy (dietPreference d)
  else true.

(** [goToNextStep]: the new state, and the [userData] handed to the
    dashboard route when the form is submitted. *)
Definition goToNextStep (st : FormState) : FormState * option FormData :=
  if currentStep st <? 3
  then ({| currentStep := currentStep st + 1; formData := formData st |}, None)
  else (st, Some (formData st)).

Definition goToPreviousStep (st : FormState) : FormState :=
  if 1 <? currentStep st
  then {| currentStep := currentStep st - 1; formData := formData st |}
  else st.

(** The inputs of each step. *)
Definition rendered (step : Z) (f : Field) : bool :=
  match f with
  | FName | FAge | FGender | FHeight | FWeight | FSleepHours | FWaterIntake => step =? 1
  | FGoal | FFitnessLevel | FStressLevel => step =? 2
  | FLocation | FDietPreference => step =? 3
  end.

(** What the user can do: type or select in an input, press the Next /
    Generate Plan button (disabled while the step is not valid), press Back
    (disabled on the first step).  [updateField] does not look at the step:
    a change is stored from whichever input delivers it, and the inputs of
    a step are still there after the step is left, while they animate out
    ([AnimatePresence] with [mode='wait'] and an [exit] animation).  Which
    inputs are mounted at each moment is not modelled: the form takes a
    change of any field at any step. *)
Inductive UIEvent : Type :=
| Change (f : Field) (v : string)
| ClickNext
| ClickBack.

Definition dispatch (ev : UIEvent) (st : FormState) : FormState * option FormData :=
  match ev with
  | Change f v => (updateField f v st, None)
  | ClickNext => if isCurrentStepValid st then goToNextStep st else (st, None)
  | ClickBack => (if currentStep st =? 1 then st else goToPreviousStep st, None)
  end.

(** A session of the form: the final state and the profiles handed over. *)
Fixpoint run (evs : list UIEvent) (st : FormState) : FormState * list FormData :=
  match evs with
  | [] => (st, [])
  | ev :: rest =>
      let '(st', out) := dispatch ev st in
      let '(st'', outs) := run rest st' in
      (st'', option_list out ++ outs)
  end.

(** ** The image service (generateImageUrl) *)

(** The characters [encodeURIComponent] leaves as they are: letters, digits
    and [- _ . ! ~ * ' ( )]. *)
Definition is_unreserved (c : ascii) : bool :=
  is_letter c || is_digit c
  || (code c =? 45) || (code c =? 95) || (code c =? 46) || (code c =? 33)
  || (code c =? 126) || (code c =? 42) || (code c =? 39) || (code c =? 40)
  || (code c =? 41).

Definition hex_upper (n : Z) : ascii := chr (if n <? 10 then 48 + n else 55 + n).

(** [%XX] for a byte of the UTF-8 form. *)
Definition percent_byte (c : ascii) : string :=
  String (chr 37) (String (hex_upper (code c / 16)) (String (hex_upper (code c mod 16)) EmptyString)).

Fixpoint percent_encode (s : string) : string :=
  match s with
  | EmptyString => EmptyString
  | String c r => (if is_unreserved c then String c EmptyString else percent_byte c) +:+ percent_encode r
  end.

(** A surrogate code unit that is not part of a pair: in the byte form of a
    string, the three-byte sequence that begins [ED A0..BF]. *)
Fixpoint has_lone_surrogate (s : string) : bool :=
  match s with
  | EmptyString => false
  | String c r =>
      ((code c =? 237)
       && match r with
          | String d _ => (160 <=? code d) && (code d <=? 191)
          | EmptyString => false
          end)
      || has_lone_surrogate r
  end.

(** [encodeURIComponent(s)]; [None] stands for the [URIError] thrown on a
    lone surrogate. *)
Definition encodeURIComponent (s : string) : option string :=
  if has_lone_surrogate s then None else Some (percent_encode s).

Definition cameraSettings : string :=
  "shot on 85mm lens, f/1.8, soft studio lighting, sharp focus, 8k ultra-detailed".

(** [enhancedPrompt] of [generateImageUrl]. *)
Definition enhancedPrompt (prompt type gender : string) : string :=
  if String.eqb type "exercise" then
    let genderTerm := if truthy gender then gender +:+ " " else "" in
    "ultra-realistic cinematic fitness photography of a " +:+ genderTerm +:+
    "athlete actively performing the " +:+ prompt +:+
    " exercise with textbook biomechanics and competition-level form, clearly defined joint alignment, neutral spine, engaged core, correct range of motion, mid-rep action phase captured at peak muscle contraction, powerful athletic posture, performance-focused expression (not posing), " +:+
    genderTerm +:+
    "physique: low body fat, visibly muscular, strong and functional build, sweat texture on skin, natural muscle striations, realistic proportions, no exaggerated curves, no beauty posing, modern professional gym environment, premium equipment, shallow depth of field, dramatic directional lighting emphasizing muscle anatomy, high-speed DSLR sports photography, ultra-sharp focus, 8K realism, " +:+
    cameraSettings
  else
    "professional culinary photography of " +:+ prompt +:+
    ", gourmet plating, macro shot, vibrant fresh ingredients, steam rising, shallow depth of field, softbox lighting, appetizing textures, " +:+
    cameraSettings.

Definition IMAGE_URL_PREFIX : string := "https://image.pollinations.ai/prompt/".
Definition IMAGE_URL_SUFFIX : string := "?width=512&height=512&nologo=true".

(** [generateImageUrl(prompt, type, gender)]; the defaults of [type] and
    [gender] are ["exercise"] and [""]. *)
Definition generateImageUrl (prompt type gender : string) : option string :=
  encodedPrompt ← encodeURIComponent (enhancedPrompt prompt type gender);
  Some (IMAGE_URL_PREFIX +:+ encodedPrompt +:+ IMAGE_URL_SUFFIX).

(** ** The image modal (ImageModal) *)

Record ModalState : Type := {
  isLoading : bool;
  hasError : bool;
  imageUrl : string
}.

Definition initialModal : ModalState :=
  {| isLoading := true; hasError := false; imageUrl := "" |}.

(** The effect that runs when [isOpen], [itemName], [type] or [userGender]
    changes; [None] when [generateImageUrl] throws. *)
Definition openEffect (isOpen : bool) (itemName type userGender : string)
    (st : ModalState) : option ModalState :=
  if isOpen && truthy itemName then
    url ← generateImageUrl itemName type userGender;
    Some {| isLoading := true; hasError := false; imageUrl := url |}
  else Some st.

Definition handleImageLoad (st : ModalState) : ModalState :=
  {| isLoading := false; hasError := hasError st; imageUrl := imageUrl st |}.

Definition handleImageError (st : ModalState) : ModalState :=
  {| isLoading := false; hasError := true; imageUrl := imageUrl st |}.

(** What the open modal renders in its image container: the spinner, the
    error notice, the image at full opacity. *)
Definition showsSpinner (st : ModalState) : bool := isLoading st.
Definition showsError (st : ModalState) : bool := hasError st && negb (isLoading st).
Definition showsImage (st : ModalState) : bool := negb (isLoading st || hasError st).

(** The load and error events of the image element. *)
Inductive ImageEvent : Type := ImageLoaded | ImageFailed.

Definition onImageEvent (ev : ImageEvent) (st : ModalState) : ModalState :=
  match ev with
  | ImageLoaded => handleImageLoad st
  | ImageFailed => handleImageError st
  end.

(** ** The theme switch (Navbar) *)

(** The parts of the browser the navigation bar reads and writes: the local
    storage and the class list of the document root. *)
Record Browser : Type := {
  localStorage : gmap string string;
  rootClasses : gset string
}.

(** [localStorage.getItem('theme') || 'dark'] *)
Definition savedTheme (b : Browser) : string :=
  match localStorage b !! "theme" with
  | Some s => if truthy s then s else "dark"
  | None => "dark"
  end.

(** The effect that runs after the first render and after each change of
    [theme]. *)
Definition themeEffect (theme : string) (b : Browser) : Browser :=
  {| rootClasses :=
       if String.eqb theme "dark" then rootClasses b ∪ {["dark"]} else rootClasses b ∖ {["dark"]};
     localStorage := <["theme" := theme]> (localStorage b) |}.

Definition toggleTheme (theme : string) : string :=
  if String.eqb theme "dark" then "light" else "dark".

(** The two buttons of the switch. *)
Inductive ThemeClick : Type := ClickLight | ClickDark.

Definition clicked (c : ThemeClick) : string :=
  match c with
  | ClickLight => "light"
  | ClickDark => "dark"
  end.

(** The navigation bar: its [theme] state and the browser around it. *)
Definition mountNavbar (b : Browser) : string * Browser :=
  (savedTheme b, themeEffect (savedTheme b) b).

(** [setTheme(v)]: a new value renders again and runs the effect, the same
    value does nothing. *)
Definition setTheme (v : string) (nav : string * Browser) : string * Browser :=
  if String.eqb v (fst nav) then nav else (v, themeEffect v (snd nav)).

Definition navbarSession (clicks : list ThemeClick) (b : Browser) : string * Browser :=
  fold_left (fun nav c => setTheme (clicked c) nav) clicks (mountNavbar b).

(** * The vocabulary of the properties *)

(** ** Provenance and traces *)

(** The returned object carries no origin field: a fallback is told from a
    generated plan by the console warning, which is the last thing the catch
    block of [generateFitnessPlan] does. *)
Inductive Origin : Type := Generated | Fallback.

Definition is_fallback_warning (ev : Event) : bool :=
  match ev with
  | Console WarnLevel [LStr s] => String.eqb s "Generating fallback plan due to API failure."
  | _ => false
  end.

Definition origin_of (t : Trace) : Origin :=
  match last t with
  | Some ev => if is_fallback_warning ev then Fallback else Generated
  | None => Generated
  end.

(** The delays waited for, in order. *)
Fixpoint waits (t : Trace) : list Z :=
  match t with
  | [] => []
  | Wait ms :: r => ms :: waits r
  | _ :: r => waits r
  end.

(** What the trace gains when every attempt fails with a retryable error. *)
Fixpoint failing_schedule (req : ChatRequest) (retries : nat) (delay : Z) : Trace :=
  match retries with
  | O => [Request req]
  | S r =>
      [Request req; Console LogLevel [LStr (retry_message delay retries)]; Wait delay]
      ++ failing_schedule req r (delay * 2)
  end.


(** ** What the catch blocks do *)

(** The error thrown on a falsy content. *)
Definition EMPTY_RESPONSE : Error :=
  PlainError "The AI returned an empty response. Please try again.".

(** The catch block of [generateFitnessPlan] on error [e]. *)
Definition fallback_outcome (e : Error) (t : Trace) : Result value * Trace :=
  (Ok FALLBACK_PLAN,
   t ++ [Console ErrorLevel [LStr "Failed to generate fitness plan:"; LErr e]; FALLBACK_WARNING]).

(** The catch block of [generateMotivationQuote] on error [e]. *)
Definition quote_fallback_outcome (e : Error) (t : Trace) : Result string * Trace :=
  (Ok QUOTE_FALLBACK,
   t ++ Console ErrorLevel [LStr "AI Service Error (Motivation Quote):"; LErr e]
     :: (if js_seq (status e) 402 || js_seq (status e) 429
         then [Console WarnLevel [LStr "Rate limited or balance exhausted. Using local fallback."]]
         else [])).

(** ** The shape of a plan *)

(** The plan shape as the specification words it: the three top-level keys
    are present and the two list fields are arrays. *)
Definition has_plan_shape (v : value) : bool :=
  match prop "workout_plan" v, prop "diet_plan" v, prop "summary" v with
  | Some (VArr _), Some (VArr _), Some _ => true
  | _, _, _ => false
  end.

(** A property that is a non-empty string, and one that is a number. *)
Definition is_text (v : option value) : bool :=
  match v with
  | Some (VStr s) => truthy s
  | _ => false
  end.

Definition is_number (v : option value) : bool :=
  match v with
  | Some (VNum _ _) => true
  | _ => false
  end.

(** Entries with all the fields the data model of the specification gives
    them. *)
Definition exercise_populated (x : value) : bool :=
  is_text (prop "name" x) && is_text (prop "sets" x) && is_text (prop "reps" x)
  && is_text (prop "tips" x).

Definition day_populated (d : value) : bool :=
  is_text (prop "day" d) && is_text (prop "focus" d)
  && match prop "exercises" d with
     | Some (VArr (x :: l)) => forallb exercise_populated (x :: l)
     | _ => false
     end.

Definition meal_populated (m : value) : bool :=
  is_text (prop "meal" m) && is_text (prop "food" m) && is_number (prop "calories" m)
  && is_text (prop "protein" m) && is_text (prop "carbs" m) && is_text (prop "fats" m).

Definition summary_populated (v : option value) : bool :=
  match v with
  | Some sm =>
      is_number (prop "daily_calories" sm)
      && match prop "macros" sm with
         | Some mc =>
             is_text (prop "protein" mc) && is_text (prop "carbs" mc) && is_text (prop "fats" mc)
         | None => false
         end
  | None => false
  end.

(** A JSON object, as opposed to [null], a number, a string or an array. *)
Definition is_object (v : value) : bool :=
  match v with
  | VObj _ => true
  | _ => false
  end.

(** ** The prompt *)

(** The fields [generateFitnessPlan] takes out of [userData]. *)
Definition prompt_fields : list Field :=
  [FName; FAge; FGender; FWeight; FHeight; FGoal; FFitnessLevel; FLocation; FDietPreference].

(** ** The constraints on a profile *)

(** Text made of letters and white space characters only. *)
Inductive LettersSpaces : string -> Prop :=
| LS_nil : LettersSpaces ""
| LS_letter c r : is_letter c = true -> LettersSpaces r -> LettersSpaces (String c r)
| LS_space w r : is_ws_seq w = true -> LettersSpaces r -> LettersSpaces (w +:+ r).

(** Text that is a plain decimal numeral denoting a positive number. *)
Definition positive_number (s : string) : Prop :=
  numeric_regex s = true /\ exists m e, parseDecimal s = Dec m e /\ 0 < m.

(** Such a text whose number is above [2^-1075], so that the binary64
    nearest to it is not zero. *)
Definition positive_binary64 (s : string) : Prop :=
  numeric_regex s = true
  /\ exists m e, parseDecimal s = Dec m e /\ 0 < m /\ rounds_to_zero m e = false.

(** The constraints of the specification on a profile. *)
Definition profile_ok (u : FormData) : Prop :=
  name u <> "" /\ LettersSpaces (name u)
  /\ positive_number (age u) /\ positive_number (height u) /\ positive_number (weight u)
  /\ positive_number (sleepHours u) /\ positive_number (waterIntake u).

Fixpoint all_chars (P : ascii -> bool) (s : string) : bool :=
  match s with
  | EmptyString => true
  | String c r => P c && all_chars P r
  end.

Definition digit_or_dot (c : ascii) : bool := is_digit c || (code c =? 46).

(** What [updateField] maintains of the name and of the numeric fields. *)
Definition wellformed (d : FormData) : Prop :=
  name_regex (name d) = true
  /\ numeric_regex (age d) = true /\ numeric_regex (height d) = true
  /\ numeric_regex (weight d) = true /\ numeric_regex (sleepHours d) = true
  /\ numeric_regex (waterIntake d) = true.

(** The check of [isCurrentStepValid] on the first step. *)
Definition step1_valid (d : FormData) : bool :=
  isCurrentStepValid {| currentStep := 1; formData := d |}.

(** What holds of every state the form can be in. *)
Definition Clean (st : FormState) : Prop :=
  (currentStep st = 1 \/ currentStep st = 2 \/ currentStep st = 3)
  /\ wellformed (formData st).

(** The event is a press of a button, or a change in an input of the
    current step. *)
Definition on_step (ev : UIEvent) (st : FormState) : bool :=
  match ev with
  | Change f _ => rendered (currentStep st) f
  | _ => true
  end.

(** A session in which every input is changed while its step is the
    current one. *)
Fixpoint on_current_step (evs : list UIEvent) (st : FormState) : bool :=
  match evs with
  | [] => true
  | ev :: rest => on_step ev st && on_current_step rest (fst (dispatch ev st))
  end.

(** What holds of the states of such a session: past the first step, its
    check still holds. *)
Definition Inv (st : FormState) : Prop :=
  (currentStep st = 1 \/ currentStep st = 2 \/ currentStep st = 3)
  /\ wellformed (formData st)
  /\ (currentStep st <> 1 -> step1_valid (formData st) = true).

(** ** Sample inputs *)

(** A completion whose only choice has the given body, and the endpoints
    that always answer with it, with status 500, with status 401. *)
Definition reply (body : string) : Response :=
  {| choices := [ {| message := {| msg_content := Some body |} |} ] |}.

Definition always_reply (body : string) : Client := fun _ _ => Ok (reply body).

Definition always_500 : Client :=
  fun _ _ => Throw (APIError (Some 500) "Internal Server Error").

Definition always_401 : Client :=
  fun _ _ => Throw (APIError (Some 401) "Unauthorized").

(** The profile of the end-to-end scenarios of the specification, and one
    that differs from it in sleepHours, waterIntake and stressLevel only. *)
Definition ana : FormData :=
  {| name := "Ana"; age := "30"; gender := "Female"; height := "165"; weight := "60";
     goal := "Weight Loss"; fitnessLevel := "Beginner"; location := "Home";
     dietPreference := "Vegetarian"; sleepHours := "7.5"; waterIntake := "2.25";
     stressLevel := "Low" |}.

Definition ana_rested : FormData :=
  {| name := "Ana"; age := "30"; gender := "Female"; height := "165"; weight := "60";
     goal := "Weight Loss"; fitnessLevel := "Beginner"; location := "Home";
     dietPreference := "Vegetarian"; sleepHours := "9"; waterIntake := "3";
     stressLevel := "High" |}.

(** The user filling the form in with the profile [ana]. *)
Definition ana_session : list UIEvent :=
  [ Change FName "Ana"; Change FAge "30"; Change FGender "Female"; Change FHeight "165";
    Change FWeight "60"; Change FSleepHours "7.5"; Change FWaterIntake "2.25"; ClickNext;
    Change FStressLevel "Low"; ClickNext;
    Change FLocation "Home"; Change FDietPreference "Vegetarian"; ClickNext ].

(** The user filling the form in with [ana] who, once Next is pressed on
    the first step, clears the name and sets the age to zero in the inputs
    of that step, and goes on. *)
Definition late_edit_session : list UIEvent :=
  [ Change FName "Ana"; Change FAge "30"; Change FGender "Female"; Change FHeight "165";
    Change FWeight "60"; Change FSleepHours "7.5"; Change FWaterIntake "2.25"; ClickNext;
    Change FName EmptyString; Change FAge "0";
    Change FStressLevel "Low"; ClickNext;
    Change FLocation "Home"; Change FDietPreference "Vegetarian"; ClickNext ].

Definition ana_unnamed : FormData :=
  {| name := EmptyString; age := "0"; gender := "Female"; height := "165"; weight := "60";
     goal := "Weight Loss"; fitnessLevel := "Beginner"; location := "Home";
     dietPreference := "Vegetarian"; sleepHours := "7.5"; waterIntake := "2.25";
     stressLevel := "Low" |}.

(** A body with the plan shape and one key more, and its value. *)
Definition plan_with_extra_key : string :=
  unq "{'workout_plan': [{'day': 'Monday'}], 'diet_plan': [], 'summary': {}, 'note': 'extra'}".

Definition parsed_plan_with_extra_key : value :=
  VObj {[ "workout_plan" := VArr [VObj {[ "day" := VStr "Monday" ]}];
          "diet_plan" := VArr [];
          "summary" := VObj ∅;
          "note" := VStr "extra" ]}.

(** ** The schedule of the executor *)

(** The first [k] failed rounds of the executor on a request: each is the
    request, the console message and the wait, the delay doubling and the
    count of retries left going down. *)
Fixpoint retry_rounds (req : ChatRequest) (k retries : nat) (delay : Z) : Trace :=
  match k with
  | O => []
  | S k' =>
      [Request req; Console LogLevel [LStr (retry_message delay retries)]; Wait delay]
      ++ retry_rounds req k' (pred retries) (delay * 2)
  end.

(** [delay], [2 * delay], [4 * delay], ... ([k] of them). *)
Fixpoint backoff_delays (k : nat) (delay : Z) : list Z :=
  match k with
  | O => []
  | S k' => delay :: backoff_delays k' (delay * 2)
  end.

(** The sum of a list of delays. *)
Definition total (l : list Z) : Z := fold_right Z.add 0 l.

(** A completion from which no content can be read: it has no choice, or
    the content of its first choice is [null]. *)
Definition unusable (response : Response) : Prop :=
  match choices response with
  | [] => True
  | c :: _ => msg_content (message c) = None
  end.

(** The fields [generateMotivationQuote] takes out of [userData]. *)
Definition quote_fields : list Field := [FName; FGoal; FFitnessLevel].

(** An endpoint that answers 429 to the first request and then replies. *)
Definition busy_then_reply (body : string) : Client :=
  fun n _ => match n with
             | O => Throw (APIError (Some 429) "Too Many Requests")
             | S _ => Ok (reply body)
             end.

(** A quote with white space around it. *)
Definition padded_quote : string := "  Keep going, Ana!" +:+ String LF "".

(** An endpoint whose completions have no choice. *)
Definition always_no_choice : Client := fun _ _ => Ok {| choices := [] |}.

(** ** More on the form *)

(** The check of [isCurrentStepValid] on the second step. *)
Definition step2_valid (d : FormData) : bool :=
  isCurrentStepValid {| currentStep := 2; formData := d |}.

(** Some character of the text is a letter. *)
Fixpoint has_letter (s : string) : bool :=
  match s with
  | EmptyString => false
  | String c r => is_letter c || has_letter r
  end.

(** The test [updateField] makes before it stores a value. *)
Definition accepts (f : Field) (v : string) : bool :=
  if bool_decide (f ∈ numericFields) then String.eqb v "" || numeric_regex v
  else if bool_decide (f = FName) then String.eqb v "" || name_regex v
  else true.

(** Presses of the Next / Generate Plan button among the events. *)
Definition is_next (ev : UIEvent) : bool :=
  match ev with ClickNext => true | _ => false end.
Definition count_next (evs : list UIEvent) : nat := length (List.filter is_next evs).

(** Events that move between the steps and do not touch an input. *)
Definition is_navigation (ev : UIEvent) : bool :=
  match ev with Change _ _ => false | _ => true end.

(** A profile the form is meant to let through: a name of letters and white
    space with at least one letter, positive numbers that binary64 does not
    round to zero, and a choice made for everything else. *)
Definition enterable (d : FormData) : Prop :=
  LettersSpaces (name d) /\ has_letter (name d) = true
  /\ positive_binary64 (age d) /\ positive_binary64 (height d)
  /\ positive_binary64 (weight d)
  /\ positive_binary64 (sleepHours d) /\ positive_binary64 (waterIntake d)
  /\ gender d <> "" /\ goal d <> "" /\ fitnessLevel d <> "" /\ stressLevel d <> ""
  /\ location d <> "" /\ dietPreference d <> "".

(** The user filling the form in with the profile [d], step by step. *)
Definition session_of (d : FormData) : list UIEvent :=
  [ Change FName (name d); Change FAge (age d); Change FGender (gender d);
    Change FHeight (height d); Change FWeight (weight d);
    Change FSleepHours (sleepHours d); Change FWaterIntake (waterIntake d); ClickNext;
    Change FGoal (goal d); Change FFitnessLevel (fitnessLevel d);
    Change FStressLevel (stressLevel d); ClickNext;
    Change FLocation (location d); Change FDietPreference (dietPreference d); ClickNext ].

(** The same with the second step: on the third step, its check still
    holds. *)
Definition Inv2 (st : FormState) : Prop :=
  Inv st /\ (currentStep st = 3 -> step2_valid (formData st) = true).

(** ** The image URL *)

(** The characters an encoded prompt is made of: the unreserved ones and the
    percent sign of the escapes. *)
Definition url_safe (c : ascii) : bool := is_unreserved c || (code c =? 37).

(** The inverse of [percent_encode]: each escape [%XX] is the byte it
    stands for. *)
Fixpoint percent_decode (s : string) : string :=
  match s with
  | EmptyString => EmptyString
  | String c r =>
      if code c =? 37 then
        match r with
        | String h (String l r') =>
            match hex_digit h, hex_digit l with
            | Some x, Some y => String (chr (16 * x + y)) (percent_decode r')
            | _, _ => String c (percent_decode r)
            end
        | _ => String c (percent_decode r)
        end
      else String c (percent_decode r)
  end.

(** ** The image modal and the theme switch *)

(** The state of the modal after the events of its image element. *)
Definition afterImageEvents (evs : list ImageEvent) (st : ModalState) : ModalState :=
  fold_left (fun s ev => onImageEvent ev s) evs st.

Definition is_failure (ev : ImageEvent) : bool :=
  match ev with ImageFailed => true | ImageLoaded => false end.

(** The theme is shown and saved: the stored theme is the current one, and
    the root has the class [dark] exactly under the dark theme. *)
Definition theme_applied (nav : string * Browser) : Prop :=
  localStorage (snd nav) !! "theme" = Some (fst nav)
  /\ ("dark" ∈ rootClasses (snd nav) <-> fst nav = "dark")
  /\ fst nav <> "".

(** * Properties *)

(** ** The retry executor *)

Lemma requests_app (t t' : Trace) : requests (t ++ t') = (requests t + requests t')%nat.
Proof. unfold requests. by rewrite List.filter_app, length_app. Qed.

Lemma requests_snoc_request (t : Trace) (req : ChatRequest) :
  requests (t ++ [Request req]) = S (requests t).
Proof. rewrite requests_app. cbn. lia. Qed.

Section Executor.
Context {A : Type} (operation : M A).

Lemma retry_unfold (retries : nat) (delay : Z) (t : Trace) :
  retryWithBackoff operation retries delay t =
  match operation t with
  | (Ok a, t') => (Ok a, t')
  | (Throw error, t') =>
      match retries with
      | O => (Throw error, t')
      | S retries' =>
          if isRetryable error
          then retryWithBackoff operation retries' (delay * 2)
                 (t' ++ [Console LogLevel [LStr (retry_message delay retries)]; Wait delay])
          else (Throw error, t')
      end
  end.
Proof.
  destruct retries; cbn; unfold try_catch; destruct (operation t) as [[a|e] t'];
    try reflexivity.
  destruct (isRetryable e); cbn; [|reflexivity].
  unfold mbind, M_bind, console_log, sleep, emit. cbn.
  by rewrite <- app_assoc.
Qed.

Lemma retry_success retries delay t a t' :
  operation t = (Ok a, t') -> retryWithBackoff operation retries delay t = (Ok a, t').
Proof. intros H. by rewrite retry_unfold, H. Qed.

Lemma retry_terminal retries delay t e t' :
  operation t = (Throw e, t') -> isRetryable e = false ->
  retryWithBackoff operation retries delay t = (Throw e, t').
Proof. intros H He. rewrite retry_unfold, H, He. by destruct retries. Qed.

Lemma retry_exhausted delay t e t' :
  operation t = (Throw e, t') -> retryWithBackoff operation 0 delay t = (Throw e, t').
Proof. intros H. by rewrite retry_unfold, H. Qed.

(** The outcome of the executor, value or error, is the outcome of its
    last call of the operation. *)
Lemma retry_outcome_is_last_call retries :
  forall delay t, exists t0, retryWithBackoff operation retries delay t = operation t0.
Proof.
  induction retries as [|r IH]; intros delay t; rewrite retry_unfold.
  - exists t. by destruct (operation t) as [[a|e] t'].
  - destruct (operation t) as [[a|e] t'] eqn:E.
    + exists t. by rewrite E.
    + destruct (isRetryable e).
      * apply IH.
      * exists t. by rewrite E.
Qed.

(** An operation that issues one request per call is asked at most
    [retries + 1] times. *)
Lemma retry_requests_bound :
  (forall t, requests (snd (operation t)) = S (requests t)) ->
  forall retries delay t,
    (requests (snd (retryWithBackoff operation retries delay t))
     <= requests t + retries + 1)%nat.
Proof.
  intros Hop. induction retries as [|r IH]; intros delay t; rewrite retry_unfold;
    specialize (Hop t); destruct (operation t) as [[a|e] t']; cbn [snd] in *; try lia.
  destruct (isRetryable e); cbn [snd]; [|lia].
  etrans; [apply IH|]. rewrite requests_app. cbn. lia.
Qed.
End Executor.

Lemma retry_always_failing (openai : Client) (req : ChatRequest) (e : nat -> Error) :
  (forall n, openai n req = Throw (e n)) ->
  (forall n, isRetryable (e n) = true) ->
  forall retries delay t,
    retryWithBackoff (create openai req) retries delay t =
    (Throw (e (requests t + retries)%nat), t ++ failing_schedule req retries delay).
Proof.
  intros Hfail Hretry. induction retries as [|r IH]; intros delay t;
    rewrite retry_unfold; unfold create at 1; rewrite Hfail.
  - by rewrite Nat.add_0_r.
  - rewrite Hretry, IH. f_equal.
    + do 2 f_equal. rewrite !requests_app. cbn. lia.
    + cbn. by rewrite <- !app_assoc.
Qed.

(** C4.  When every call of the endpoint fails with a retryable error, the
    executor under the policy of the plan call (2 retries, first delay
    1000 ms) makes exactly 3 attempts one after the other, waits 1000 ms
    before the second and 2000 ms before the third, and then throws the
    error of the third attempt. *)
Theorem retry_policy_three_attempts (openai : Client) (userData : FormData)
    (e : nat -> Error) (t : Trace) :
  (forall n, openai n (plan_request userData) = Throw (e n)) ->
  (forall n, isRetryable (e n) = true) ->
  let req := plan_request userData in
  let added :=
    [ Request req;
      Console LogLevel [LStr "API call failed. Retrying in 1000ms... (2 attempts left)"];
      Wait 1000;
      Request req;
      Console LogLevel [LStr "API call failed. Retrying in 2000ms... (1 attempts left)"];
      Wait 2000;
      Request req ] in
  retryWithBackoff (create openai req) 2 1000 t = (Throw (e (requests t + 2)%nat), t ++ added)
  /\ requests added = (2 + 1)%nat
  /\ waits added = [1000; 1000 * 2].
Proof.
  intros Hfail Hretry req added. split; [|split; reflexivity].
  by rewrite (retry_always_failing openai req e Hfail Hretry).
Qed.

Lemma retry_policy_three_attempts_witness :
  fst (retryWithBackoff (create always_500 (plan_request ana)) 2 1000 [])
    = Throw (APIError (Some 500) "Internal Server Error")
  /\ requests (snd (retryWithBackoff (create always_500 (plan_request ana)) 2 1000 [])) = 3%nat
  /\ waits (snd (retryWithBackoff (create always_500 (plan_request ana)) 2 1000 [])) = [1000; 2000].
Proof.
  destruct (retry_policy_three_attempts always_500 ana
              (fun _ => APIError (Some 500) "Internal Server Error") [])
    as (H & _ & _); [reflexivity | reflexivity |].
  rewrite H. repeat split; reflexivity.
Defined.





(** C8.  The executor hands a failure on and never makes up a result: a
    terminal error is thrown to the caller as it is, and so is any error
    once no retry is left; when the operation fails at every attempt the
    executor throws an error the operation threw; and in every case the
    outcome of the executor, with its trace, is the outcome of one call of
    the operation, its last. *)
Theorem retry_propagates_failure (A : Type) (operation : M A) (retries : nat)
    (delay : Z) (t : Trace) :
  (forall e t', operation t = (Throw e, t') -> isRetryable e = false ->
     retryWithBackoff operation retries delay t = (Throw e, t'))
  /\ (forall e t', operation t = (Throw e, t') -> retries = O ->
      retryWithBackoff operation retries delay t = (Throw e, t'))
  /\ ((forall t0, exists e t1, operation t0 = (Throw e, t1)) ->
      exists e t0 t1, operation t0 = (Throw e, t1)
        /\ retryWithBackoff operation retries delay t = (Throw e, t1))
  /\ (exists t0, retryWithBackoff operation retries delay t = operation t0).
Proof.
  split; [|split; [|split]].
  - intros e t'. apply retry_terminal.
  - intros e t' H ->. by apply retry_exhausted.
  - intros Hall. destruct (retry_outcome_is_last_call operation retries delay t) as [t0 H0].
    destruct (Hall t0) as (e & t1 & H1). exists e, t0, t1. split; [done|]. by rewrite H0.
  - apply retry_outcome_is_last_call.
Qed.

Lemma retry_propagates_failure_witness :
  retryWithBackoff (create always_401 (plan_request ana)) 2 1000 []
    = (Throw (APIError (Some 401) "Unauthorized"), [Request (plan_request ana)])
  /\ retryWithBackoff (create always_500 (plan_request ana)) 0 1000 []
    = (Throw (APIError (Some 500) "Internal Server Error"), [Request (plan_request ana)])
  /\ exists e t1, retryWithBackoff (create always_500 (plan_request ana)) 2 1000 [] = (Throw e, t1).
Proof.
  split; [|split].
  - destruct (retry_propagates_failure Response (create always_401 (plan_request ana)) 2 1000 [])
      as (H & _).
    apply H; reflexivity.
  - destruct (retry_propagates_failure Response (create always_500 (plan_request ana)) 0 1000 [])
      as (_ & H & _).
    apply H; reflexivity.
  - destruct (retry_propagates_failure Response (create always_500 (plan_request ana)) 2 1000 [])
      as (_ & _ & H & _).
    destruct H as (e & t0 & t1 & _ & H).
    + intros t0. eexists _, _. reflexivity.
    + by exists e, t1.
Defined.

(** ** generateFitnessPlan *)

Lemma generateFitnessPlan_unfold (openai : Client) (userData : FormData) (t : Trace) :
  generateFitnessPlan openai userData t =
  match retryWithBackoff (create openai (plan_request userData)) 2 1000 t with
  | (Throw e, t1) => fallback_outcome e t1
  | (Ok response, t1) =>
      match choices response with
      | [] => fallback_outcome
                (TypeError "Cannot read properties of undefined (reading 'message')") t1
      | c :: _ =>
          if js_not_content (msg_content (message c)) then fallback_outcome EMPTY_RESPONSE t1
          else
            match JSON_parse (js_to_string (msg_content (message c))) with
            | Ok v => (Ok v, t1)
            | Throw e => fallback_outcome e t1
            end
      end
  end.
Proof.
  assert (Hcatch : forall e t1,
    (console_error [LStr "Failed to generate fitness plan:"; LErr e];;
     emit FALLBACK_WARNING;; mret FALLBACK_PLAN) t1 = fallback_outcome e t1).
  { intros e t1. unfold fallback_outcome, mbind, M_bind, console_error, emit, mret, M_ret.
    cbn. by rewrite <- app_assoc. }
  unfold generateFitnessPlan, try_catch. unfold mbind at 1, M_bind at 1.
  destruct (retryWithBackoff _ 2 1000 t) as [[response|e] t1]; [|apply Hcatch].
  unfold mbind at 1, M_bind at 1, first_choice_content.
  destruct (choices response) as [|c cs]; [apply Hcatch|].
  cbn [mret M_ret]. destruct (js_not_content _); [apply Hcatch|].
  unfold from_result. destruct (JSON_parse _); [reflexivity | apply Hcatch].
Qed.

Lemma last_snoc2 {A : Type} (l : list A) (a b : A) : last (l ++ [a; b]) = Some b.
Proof. change (l ++ [a; b]) with (l ++ [a] ++ [b]). by rewrite app_assoc, last_snoc. Qed.

Lemma origin_of_fallback_outcome (e : Error) (t : Trace) :
  origin_of (snd (fallback_outcome e t)) = Fallback.
Proof. unfold origin_of, fallback_outcome. cbn [snd]. by rewrite last_snoc2. Qed.

Lemma origin_of_request (t : Trace) (req : ChatRequest) :
  origin_of (t ++ [Request req]) = Generated.
Proof. unfold origin_of. by rewrite last_snoc. Qed.

(** A successful run of the executor on a request ends with that request. *)
Lemma retry_create_ok (openai : Client) (req : ChatRequest) retries delay t response t1 :
  retryWithBackoff (create openai req) retries delay t = (Ok response, t1) ->
  exists t0, t1 = t0 ++ [Request req].
Proof.
  destruct (retry_outcome_is_last_call (create openai req) retries delay t) as [t0 H0].
  rewrite H0. unfold create. intros [= _ <-]. by exists t0.
Qed.

Lemma JSON_parse_empty : JSON_parse "" = Throw (SyntaxError "Unexpected token in JSON").
Proof. reflexivity. Qed.

Lemma js_not_content_Some (body : string) : js_not_content (Some body) = false <-> body <> "".
Proof.
  cbn. destruct (String.eqb_spec body ""); split; congruence.
Qed.

(** C1, as the code has it.  Whatever the profile and whatever the endpoint
    does, throwing any error or returning any completion at each call,
    [generateFitnessPlan] returns a value and never throws: the bundled
    fallback plan, announced by the console warning, or what [JSON.parse]
    made of the non-empty content of the first choice of the completion the
    executor returned, whatever value that is.  When the executor throws,
    the catch block of [generateFitnessPlan] is where the fallback is put
    in its place. *)
Theorem generateFitnessPlan_never_throws (openai : Client) (userData : FormData) (t : Trace) :
  (exists plan t',
     generateFitnessPlan openai userData t = (Ok plan, t')
     /\ ((plan = FALLBACK_PLAN /\ origin_of t' = Fallback)
         \/ (origin_of t' = Generated
             /\ exists response c cs body,
                  retryWithBackoff (create openai (plan_request userData)) 2 1000 t
                    = (Ok response, t')
                  /\ choices response = c :: cs
                  /\ msg_content (message c) = Some body
                  /\ body <> ""
                  /\ JSON_parse body = Ok plan)))
  /\ (forall e t1,
        retryWithBackoff (create openai (plan_request userData)) 2 1000 t = (Throw e, t1) ->
        generateFitnessPlan openai userData t = fallback_outcome e t1).
Proof.
  split.
  - rewrite generateFitnessPlan_unfold.
    destruct (retryWithBackoff _ 2 1000 t) as [[response|e] t1] eqn:Hretry.
    2: { eexists _, _. split; [reflexivity|]. left. split; [done|].
         apply (origin_of_fallback_outcome e t1). }
    assert (Hfb : forall e, exists plan t',
      fallback_outcome e t1 = (Ok plan, t')
      /\ ((plan = FALLBACK_PLAN /\ origin_of t' = Fallback)
          \/ (origin_of t' = Generated
              /\ exists response0 c cs body,
                   (Ok response, t1) = (Ok response0, t')
                   /\ choices response0 = c :: cs
                   /\ msg_content (message c) = Some body
                   /\ body <> ""
                   /\ JSON_parse body = Ok plan))).
    { intros e. eexists _, _. split; [reflexivity|]. left. split; [done|].
      apply (origin_of_fallback_outcome e t1). }
    destruct (choices response) as [|c cs] eqn:Hch; [apply Hfb|].
    destruct (msg_content (message c)) as [body|] eqn:Hc; [|apply Hfb].
    destruct (js_not_content (Some body)) eqn:Hne; [apply Hfb|].
    cbn [js_to_string].
    destruct (JSON_parse body) as [v|e] eqn:Hparse; [|apply Hfb].
    exists v, t1. split; [done|]. right. split.
    + apply retry_create_ok in Hretry as [t0 ->]. apply origin_of_request.
    + exists response, c, cs, body. repeat split; try done. by apply js_not_content_Some.
  - intros e t1 H. by rewrite generateFitnessPlan_unfold, H.
Qed.

Lemma generateFitnessPlan_never_throws_witness :
  generateFitnessPlan always_500 ana [] =
  fallback_outcome (APIError (Some 500) "Internal Server Error")
    (snd (retryWithBackoff (create always_500 (plan_request ana)) 2 1000 [])).
Proof.
  destruct (generateFitnessPlan_never_throws always_500 ana []) as [_ H].
  apply H. reflexivity.
Defined.

Lemma generateFitnessPlan_on_body (openai : Client) (userData : FormData) (t t1 : Trace)
    (response : Response) (c : Choice) (cs : list Choice) (body : string) :
  retryWithBackoff (create openai (plan_request userData)) 2 1000 t = (Ok response, t1) ->
  choices response = c :: cs ->
  msg_content (message c) = Some body ->
  generateFitnessPlan openai userData t =
  if String.eqb body "" then fallback_outcome EMPTY_RESPONSE t1
  else
    match JSON_parse body with
    | Ok v => (Ok v, t1)
    | Throw e => fallback_outcome e t1
    end.
Proof.
  intros Hretry Hch Hc. by rewrite generateFitnessPlan_unfold, Hretry, Hch, Hc.
Qed.

(** C1 fails where it says that the result is a plan object: the body
    [null] is not empty and parses, so [generateFitnessPlan] returns the
    value [null], which is no object and has none of the keys of a plan;
    the bundled fallback plan is not put in. *)
Lemma null_body_is_returned :
  fst (generateFitnessPlan (always_reply "null") ana []) = Ok VNull
  /\ is_object VNull = false
  /\ has_plan_shape VNull = false
  /\ origin_of (snd (generateFitnessPlan (always_reply "null") ana [])) = Generated.
Proof.
  assert (H : generateFitnessPlan (always_reply "null") ana []
              = (Ok VNull, [Request (plan_request ana)])).
  { by rewrite (generateFitnessPlan_on_body (always_reply "null") ana []
                  [Request (plan_request ana)] (reply "null") _ _ "null"
                  eq_refl eq_refl eq_refl). }
  rewrite H. repeat split; reflexivity.
Qed.

(** C2, as the code has it.  When the executor returns a completion whose
    first choice has the content [""] or ["{invalid json"],
    [generateFitnessPlan] logs the error and the warning and returns the
    bundled fallback plan.  The content is tested for being non-empty and
    handed to [JSON.parse], and nothing else: whatever [JSON.parse] returns
    is the result. *)
Theorem empty_or_unparseable_body_gives_fallback (openai : Client) (userData : FormData)
    (t t1 : Trace) (response : Response) (c : Choice) (cs : list Choice) (body : string) :
  retryWithBackoff (create openai (plan_request userData)) 2 1000 t = (Ok response, t1) ->
  choices response = c :: cs ->
  msg_content (message c) = Some body ->
  let r := generateFitnessPlan openai userData t in
  (body = "" \/ body = "{invalid json" ->
   fst r = Ok FALLBACK_PLAN
   /\ origin_of (snd r) = Fallback
   /\ exists e, snd r = t1 ++ [Console ErrorLevel [LStr "Failed to generate fitness plan:"; LErr e];
                              FALLBACK_WARNING])
  /\ r = (if String.eqb body "" then fallback_outcome EMPTY_RESPONSE t1
          else match JSON_parse body with
               | Ok v => (Ok v, t1)
               | Throw e => fallback_outcome e t1
               end).
Proof.
  intros Hretry Hch Hc r.
  pose proof (generateFitnessPlan_on_body openai userData t t1 response c cs body Hretry Hch Hc)
    as Hr.
  fold r in Hr. split; [|exact Hr].
  intros [-> | ->]; rewrite Hr; cbn [String.eqb];
    (split; [reflexivity | split; [apply origin_of_fallback_outcome | eexists; reflexivity]]).
Qed.

Lemma empty_or_unparseable_body_gives_fallback_witness :
  fst (generateFitnessPlan (always_reply "{invalid json") ana []) = Ok FALLBACK_PLAN
  /\ origin_of (snd (generateFitnessPlan (always_reply "{invalid json") ana [])) = Fallback
  /\ fst (generateFitnessPlan (always_reply "") ana []) = Ok FALLBACK_PLAN.
Proof.
  destruct (empty_or_unparseable_body_gives_fallback (always_reply "{invalid json") ana
              [] [Request (plan_request ana)] (reply "{invalid json") _ _ "{invalid json"
              eq_refl eq_refl eq_refl) as [H1 _].
  destruct (empty_or_unparseable_body_gives_fallback (always_reply "") ana
              [] [Request (plan_request ana)] (reply "") _ _ ""
              eq_refl eq_refl eq_refl) as [H2 _].
  destruct (H1 (or_intror eq_refl)) as (Ha & Hb & _).
  destruct (H2 (or_introl eq_refl)) as (Hc & _).
  exact (conj Ha (conj Hb Hc)).
Defined.

(** C2 fails for the body ["{}"]: it parses, so it is returned as the empty
    object, with no warning; the bundled fallback plan is not put in. *)
Lemma empty_object_body_is_returned :
  fst (generateFitnessPlan (always_reply "{}") ana []) = Ok (VObj ∅)
  /\ fst (generateFitnessPlan (always_reply "{}") ana []) <> Ok FALLBACK_PLAN
  /\ origin_of (snd (generateFitnessPlan (always_reply "{}") ana [])) = Generated.
Proof.
  assert (H : generateFitnessPlan (always_reply "{}") ana []
              = (Ok (VObj ∅), [Request (plan_request ana)])).
  { by rewrite (generateFitnessPlan_on_body (always_reply "{}") ana []
                  [Request (plan_request ana)] (reply "{}") _ _ "{}" eq_refl eq_refl eq_refl). }
  rewrite H. split; [reflexivity | split; [|reflexivity]].
  cbn [fst]. intros E.
  assert (E' : prop "summary" (VObj ∅) = prop "summary" FALLBACK_PLAN) by congruence.
  vm_compute in E'. discriminate.
Qed.

(** C3.  When the executor returns a completion whose first choice has a
    content that [JSON.parse] accepts and whose value has the plan shape,
    extra keys or not, [generateFitnessPlan] returns that very value, adds
    nothing to the trace of the executor and gives no fallback warning. *)
Theorem wellformed_plan_returned_unmodified (openai : Client) (userData : FormData)
    (t t1 : Trace) (response : Response) (c : Choice) (cs : list Choice)
    (body : string) (v : value) :
  retryWithBackoff (create openai (plan_request userData)) 2 1000 t = (Ok response, t1) ->
  choices response = c :: cs ->
  msg_content (message c) = Some body ->
  JSON_parse body = Ok v ->
  has_plan_shape v = true ->
  generateFitnessPlan openai userData t = (Ok v, t1)
  /\ origin_of (snd (generateFitnessPlan openai userData t)) = Generated.
Proof.
  intros Hretry Hch Hc Hparse _.
  assert (Hr : generateFitnessPlan openai userData t = (Ok v, t1)).
  { rewrite (generateFitnessPlan_on_body openai userData t t1 response c cs body Hretry Hch Hc),
      Hparse.
    destruct (String.eqb_spec body "") as [->|]; [|reflexivity].
    rewrite JSON_parse_empty in Hparse. discriminate. }
  split; [exact Hr|]. rewrite Hr. cbn [snd].
  apply retry_create_ok in Hretry as [t0 ->]. apply origin_of_request.
Qed.

Lemma wellformed_plan_returned_unmodified_witness :
  generateFitnessPlan (always_reply plan_with_extra_key) ana []
    = (Ok parsed_plan_with_extra_key, [Request (plan_request ana)]).
Proof.
  destruct (wellformed_plan_returned_unmodified (always_reply plan_with_extra_key) ana
              [] [Request (plan_request ana)] (reply plan_with_extra_key) _ _
              plan_with_extra_key parsed_plan_with_extra_key eq_refl eq_refl eq_refl)
    as [H _]; [vm_compute; reflexivity | vm_compute; reflexivity |].
  exact H.
Defined.

(** ** The prompt *)

Lemma render_depends_on_substituted (tpl : list chunk) (u u' : FormData) :
  (forall f, (0 < substitutions f tpl)%nat -> field f u = field f u') ->
  render tpl u = render tpl u'.
Proof.
  induction tpl as [|[s|f] tpl IH]; intros H; cbn; [reflexivity | |].
  - f_equal. apply IH. intros f Hf. apply H. exact Hf.
  - rewrite (H f), IH; [reflexivity | |].
    + intros g Hg. apply H. unfold substitutions in *. cbn.
      destruct (bool_decide (g = f)); cbn; lia.
    + unfold substitutions. cbn. rewrite bool_decide_eq_true_2 by reflexivity. cbn. lia.
Qed.

(** C6, as the code has it.  The request is a function of the profile, and
    of nine of its fields only: the prompt template substitutes each of
    name, age, gender, weight, height, goal, fitnessLevel, location and
    dietPreference exactly once, and sleepHours, waterIntake and stressLevel
    not at all. *)
Theorem prompt_embeds_nine_fields :
  (forall u u' : FormData, u = u' -> plan_request u = plan_request u')
  /\ (forall u : FormData,
        plan_request u =
        {| model := "google/gemini-2.0-flash-exp:free";
           messages := [ {| role := "user"; content := render planPrompt u |} ];
           response_format := Some "json_object" |})
  /\ (forall f : Field,
        substitutions f planPrompt = if bool_decide (f ∈ prompt_fields) then 1%nat else 0%nat)
  /\ (forall u u' : FormData,
        (forall f, f ∈ prompt_fields -> field f u = field f u') ->
        plan_request u = plan_request u').
Proof.
  assert (Hcount : forall f : Field,
    substitutions f planPrompt = if bool_decide (f ∈ prompt_fields) then 1%nat else 0%nat).
  { intros f. destruct f; vm_compute; reflexivity. }
  split; [by intros u u' -> | split; [reflexivity | split; [exact Hcount|]]].
  intros u u' H. unfold plan_request. do 3 f_equal.
  apply render_depends_on_substituted. intros f Hf. apply H.
  rewrite Hcount in Hf. destruct (bool_decide (f ∈ prompt_fields)) eqn:E; [|lia].
  by apply bool_decide_eq_true in E.
Qed.

Lemma prompt_embeds_nine_fields_witness : plan_request ana = plan_request ana_rested.
Proof.
  destruct prompt_embeds_nine_fields as (_ & _ & _ & H).
  apply (H ana ana_rested). intros f Hf.
  destruct f; try reflexivity; exfalso; revert Hf;
    apply (bool_decide_eq_false_1 _); vm_compute; reflexivity.
Defined.

(** C6 fails for the three fields the template leaves out: the prompt for
    [ana] contains the text of her sleepHours, waterIntake and stressLevel
    nowhere, so not every field of the profile is in it exactly once. *)
Lemma prompt_omits_three_fields :
  occurrences (sleepHours ana) (render planPrompt ana) = 0%nat
  /\ occurrences (waterIntake ana) (render planPrompt ana) = 0%nat
  /\ occurrences (stressLevel ana) (render planPrompt ana) = 0%nat
  /\ ~ (forall f : Field, occurrences (field f ana) (render planPrompt ana) = 1%nat).
Proof.
  repeat split; try (vm_compute; reflexivity).
  intros H. specialize (H FSleepHours). vm_compute in H. discriminate.
Qed.

(** ** The bundled fallback plan *)

(** C7.  The fallback plan is a constant.  Its workout_plan has 7 entries,
    for Monday to Sunday in this order; its diet_plan has 4 entries, for
    Breakfast, Lunch, Snack and Dinner; every entry has all its fields: a
    day has a day, a focus and at least one exercise, each with name, sets,
    reps and tips; a meal has meal, food, calories, protein, carbs and
    fats; the summary has its calories and its three macros. *)
Theorem fallback_plan_is_complete :
  exists days meals : list value,
    prop "workout_plan" FALLBACK_PLAN = Some (VArr days)
    /\ prop "diet_plan" FALLBACK_PLAN = Some (VArr meals)
    /\ length days = 7%nat
    /\ List.map (prop "day") days =
         List.map (fun d => Some (VStr d))
           ["Monday"; "Tuesday"; "Wednesday"; "Thursday"; "Friday"; "Saturday"; "Sunday"]
    /\ length meals = 4%nat
    /\ List.map (prop "meal") meals =
         List.map (fun m => Some (VStr m)) ["Breakfast"; "Lunch"; "Snack"; "Dinner"]
    /\ forallb day_populated days = true
    /\ forallb meal_populated meals = true
    /\ summary_populated (prop "summary" FALLBACK_PLAN) = true.
Proof.
  eexists _, _. split; [vm_compute; reflexivity|]. split; [vm_compute; reflexivity|].
  repeat split; vm_compute; reflexivity.
Qed.

(** ** generateMotivationQuote *)

Lemma generateMotivationQuote_unfold (openai : Client) (userData : FormData) (t : Trace) :
  generateMotivationQuote openai userData t =
  match retryWithBackoff (quote_operation openai userData) 2 1000 t with
  | (Ok q, t1) => (Ok q, t1)
  | (Throw e, t1) => quote_fallback_outcome e t1
  end.
Proof.
  unfold generateMotivationQuote, try_catch.
  destruct (retryWithBackoff _ 2 1000 t) as [[q|e] t1]; [reflexivity|].
  unfold quote_fallback_outcome, mbind, M_bind, console_error, console_warn, emit, mret, M_ret.
  cbn. destruct (js_seq (status e) 402 || js_seq (status e) 429); cbn.
  - by rewrite <- app_assoc.
  - reflexivity.
Qed.

Lemma quote_operation_requests (openai : Client) (userData : FormData) (t : Trace) :
  requests (snd (quote_operation openai userData t)) = S (requests t).
Proof.
  unfold quote_operation, mbind, M_bind, console_log, emit, create, first_choice_content,
    mret, M_ret, throw.
  cbn -[requests]. destruct (openai _ _) as [response|e]; cbn -[requests].
  - destruct (choices response) as [|c cs]; cbn -[requests].
    + rewrite !requests_app. cbn. lia.
    + destruct (msg_content (message c)); cbn -[requests]; rewrite !requests_app; cbn; lia.
  - rewrite !requests_app. cbn. lia.
Qed.

(** C10.  [generateMotivationQuote] never throws, whatever the endpoint
    does: it returns a string after at most three requests (the first
    attempt and two retries), and when the retried call ends in an error,
    whichever it is, that string is the fixed fallback quote. *)
Theorem generateMotivationQuote_never_throws (openai : Client) (userData : FormData)
    (t : Trace) :
  (exists q t', generateMotivationQuote openai userData t = (Ok q, t')
                /\ (requests t' <= requests t + 3)%nat)
  /\ (forall e t1,
        retryWithBackoff (quote_operation openai userData) 2 1000 t = (Throw e, t1) ->
        fst (generateMotivationQuote openai userData t)
          = Ok "Consistency is the key to progress. Keep showing up!").
Proof.
  rewrite generateMotivationQuote_unfold.
  pose proof (retry_requests_bound _ (quote_operation_requests openai userData) 2%nat 1000 t) as Hb.
  destruct (retryWithBackoff _ 2 1000 t) as [[q|e] t1]; cbn [snd] in Hb; split.
  - exists q, t1. split; [done | lia].
  - intros e t2 [=].
  - eexists _, _. split; [reflexivity|].
    rewrite requests_app. destruct (js_seq _ 402 || js_seq _ 429); cbn; lia.
  - intros e' t2 _. reflexivity.
Qed.

Lemma generateMotivationQuote_never_throws_witness :
  fst (generateMotivationQuote always_401 ana [])
    = Ok "Consistency is the key to progress. Keep showing up!".
Proof.
  destruct (generateMotivationQuote_never_throws always_401 ana []) as [_ H].
  apply (H (APIError (Some 401) "Unauthorized")
           (snd (retryWithBackoff (quote_operation always_401 ana) 2 1000 []))).
  vm_compute. reflexivity.
Defined.

(** ** The input form *)

Lemma name_regex_sound_bounded (n : nat) :
  forall v, (String.length v < n)%nat -> name_regex v = true -> LettersSpaces v.
Proof.
  induction n as [|n IH]; intros v Hlen H; [lia|].
  destruct v as [|a r]; [constructor|]. cbn [name_regex String.length] in *.
  destruct (is_letter a) eqn:Ha; cbn [orb] in H.
  { apply LS_letter; [done|]. apply IH; [lia | done]. }
  destruct (is_ws_seq (str1 a)) eqn:H1.
  { apply (LS_space (str1 a) r H1). apply IH; [lia | done]. }
  destruct r as [|b r2]; [discriminate|]. cbn [String.length] in *.
  destruct (is_ws_seq (str2 a b)) eqn:H2.
  { apply (LS_space (str2 a b) r2 H2). apply IH; [lia | done]. }
  destruct r2 as [|c r3]; [discriminate|]. cbn [String.length] in *.
  destruct (is_ws_seq (str3 a b c)) eqn:H3; [|discriminate].
  apply (LS_space (str3 a b c) r3 H3). apply IH; [lia | done].
Qed.

Lemma name_regex_sound (v : string) : name_regex v = true -> LettersSpaces v.
Proof. apply (name_regex_sound_bounded (S (String.length v))). lia. Qed.

Lemma append_cons (c : ascii) (s s' : string) : String c s +:+ s' = String c (s +:+ s').
Proof. reflexivity. Qed.

Lemma all_chars_app (P : ascii -> bool) (s s' : string) :
  all_chars P (s +:+ s') = all_chars P s && all_chars P s'.
Proof.
  induction s as [|c s IH]; [reflexivity|].
  rewrite append_cons. cbn. by rewrite IH, andb_assoc.
Qed.

Lemma take_digits_spec (s : string) :
  s = fst (take_digits s) +:+ snd (take_digits s)
  /\ all_chars is_digit (fst (take_digits s)) = true.
Proof.
  induction s as [|c r [IH1 IH2]]; cbn; [done|].
  destruct (is_digit c) eqn:Hc; [|done].
  destruct (take_digits r) as [ds r'] eqn:E. cbn [fst snd] in *.
  cbn [all_chars]. rewrite Hc, IH2. split; [|done].
  by rewrite append_cons, <- IH1.
Qed.

Lemma all_chars_weaken (P Q : ascii -> bool) (s : string) :
  (forall c, P c = true -> Q c = true) -> all_chars P s = true -> all_chars Q s = true.
Proof.
  intros HPQ. induction s as [|c r IH]; cbn; [done|].
  rewrite !andb_true_iff. intros [H1 H2]. auto.
Qed.

Lemma numeric_regex_chars (v : string) :
  numeric_regex v = true -> all_chars digit_or_dot v = true.
Proof.
  unfold numeric_regex. destruct (take_digits_spec v) as [Hv Hds].
  destruct (take_digits v) as [ds r]. cbn [fst snd] in *.
  assert (Hd : forall s, all_chars is_digit s = true -> all_chars digit_or_dot s = true).
  { intros s. apply all_chars_weaken. intros c Hc. unfold digit_or_dot. by rewrite Hc. }
  assert (Htail : forall r1, (let '(_, r2) := take_digits r1 in String.eqb r2 "") = true ->
                             all_chars digit_or_dot r1 = true).
  { intros r1. destruct (take_digits_spec r1) as [Hr1 Hds1].
    destruct (take_digits r1) as [ds1 r2]. cbn [fst snd] in *.
    intros ->%String.eqb_eq. rewrite Hr1, all_chars_app. cbn. rewrite Hd by done. done. }
  intros H. rewrite Hv, all_chars_app, Hd by done. cbn [andb].
  destruct r as [|c r']; [done|].
  destruct (code c =? 46) eqn:Hc.
  - cbn. unfold digit_or_dot at 1. rewrite Hc, orb_true_r. cbn. by apply Htail.
  - by apply Htail.
Qed.

Lemma trimStart_all_chars_bounded (P : ascii -> bool) (n : nat) :
  forall s, (String.length s < n)%nat -> all_chars P s = true ->
            all_chars P (trimStart s) = true.
Proof.
  induction n as [|n IH]; intros s Hlen H; [lia|].
  destruct s as [|a r]; [done|]. cbn [trimStart String.length] in *.
  pose proof H as H0. cbn in H. apply andb_prop in H as [_ Hr].
  destruct (is_ws_seq (str1 a)); [apply IH; [lia | done]|].
  destruct r as [|b r2]; [done|]. cbn [String.length] in *.
  cbn in Hr. apply andb_prop in Hr as [_ Hr2].
  destruct (is_ws_seq (str2 a b)); [apply IH; [lia | done]|].
  destruct r2 as [|c r3]; [done|]. cbn [String.length] in *.
  cbn in Hr2. apply andb_prop in Hr2 as [_ Hr3].
  destruct (is_ws_seq (str3 a b c)); [apply IH; [lia | done] | done].
Qed.

Lemma parseDecimal_numeric_finite (s : string) (negative : bool) :
  numeric_regex s = true -> parseDecimal s <> Infinity negative.
Proof.
  intros H%numeric_regex_chars.
  apply (trimStart_all_chars_bounded _ (S (String.length s))) in H; [|lia].
  unfold parseDecimal. destruct (trimStart s) as [|c r]; [done|].
  assert (Hc : digit_or_dot c = true) by (cbn in H; by apply andb_prop in H as [? _]).
  assert (H45 : (code c =? 45) = false).
  { destruct (Z.eqb_spec (code c) 45) as [E|]; [|done].
    unfold digit_or_dot, is_digit in Hc. rewrite E in Hc. done. }
  assert (H43 : (code c =? 43) = false).
  { destruct (Z.eqb_spec (code c) 43) as [E|]; [|done].
    unfold digit_or_dot, is_digit in Hc. rewrite E in Hc. done. }
  rewrite H45, H43.
  assert (HI : strip_prefix "Infinity" (String c r) = None).
  { change (strip_prefix "Infinity" (String c r))
      with (if Ascii.eqb "I"%char c then strip_prefix "nfinity" r else None).
    destruct (Ascii.eqb_spec "I"%char c) as [<-|]; [|reflexivity].
    vm_compute in Hc. discriminate. }
  rewrite HI. destruct (take_digits (String c r)) as [ip s2].
  destruct (match s2 with
            | EmptyString => (EmptyString, s2)
            | String c0 r0 => if code c0 =? 46 then take_digits r0 else (EmptyString, s2)
            end) as [fp s3].
  by destruct (ip +:+ fp).
Qed.

Lemma zero_is_finite (e : Z) : rounds_to_infinity 0 e = false.
Proof.
  unfold rounds_to_infinity. change (Z.abs 0) with 0.
  assert (HT : 0 < 2 ^ 1024 - 2 ^ 970) by (vm_compute; reflexivity).
  generalize dependent (2 ^ 1024 - 2 ^ 970). intros T HT.
  destruct (Z.leb_spec 0 e) as [He|He]; apply Z.leb_gt; [lia|].
  assert (0 < 10 ^ (- e)) by (apply Z.pow_pos_nonneg; lia). nia.
Qed.

Lemma toBinary64_positive (m e : Z) :
  js_gt_zero (toBinary64 (Dec m e)) = true -> 0 < m.
Proof.
  unfold toBinary64. destruct (rounds_to_infinity m e) eqn:Hi.
  - cbn [js_gt_zero]. destruct (Z.ltb_spec m 0) as [|Hm]; [discriminate|]. intros _.
    destruct (Z.eq_dec m 0) as [->|]; [|lia]. rewrite zero_is_finite in Hi. discriminate.
  - destruct (rounds_to_zero m e); cbn [js_gt_zero]; [discriminate|]. apply Z.ltb_lt.
Qed.

Lemma positive_toBinary64 (m e : Z) :
  0 < m -> rounds_to_zero m e = false -> js_gt_zero (toBinary64 (Dec m e)) = true.
Proof.
  intros Hm Hz. unfold toBinary64. rewrite Hz.
  destruct (rounds_to_infinity m e); cbn [js_gt_zero].
  - by destruct (Z.ltb_spec m 0); [lia|].
  - by apply Z.ltb_lt.
Qed.

Lemma positive_number_intro (s : string) :
  numeric_regex s = true -> js_gt_zero (parseFloat s) = true -> positive_number s.
Proof.
  intros Hre Hgt. split; [done|]. unfold parseFloat in Hgt.
  destruct (parseDecimal s) as [|negative|m e] eqn:E; [done | | ].
  - by apply parseDecimal_numeric_finite in E.
  - exists m, e. split; [done|]. by apply toBinary64_positive in Hgt.
Qed.

Lemma step1_valid_profile_ok (d : FormData) :
  wellformed d -> step1_valid d = true -> profile_ok d.
Proof.
  intros (Hn & Ha & Hh & Hw & Hs & Hi). unfold step1_valid, isCurrentStepValid.
  cbn [currentStep formData]. change (1 =? 1) with true. cbn beta iota.
  rewrite !andb_true_iff. intros [[[[[[H1 _] [_ H3]] [_ H4]] [_ H5]] [_ H6]] [_ H7]].
  split; [|split; [by apply name_regex_sound|]].
  - intros E. rewrite E in H1. done.
  - repeat split; by apply positive_number_intro.
Qed.

Lemma accepted_numeric (v : string) :
  String.eqb v "" || numeric_regex v = true -> numeric_regex v = true.
Proof.
  destruct (String.eqb_spec v "") as [->|]; [reflexivity | done].
Qed.

Lemma accepted_name (v : string) :
  String.eqb v "" || name_regex v = true -> name_regex v = true.
Proof.
  destruct (String.eqb_spec v "") as [->|]; [reflexivity | done].
Qed.

(** Decide the tests of [updateField] on a given field name. *)
Ltac eval_field_tests :=
  repeat match goal with
         | |- context [bool_decide ?P] =>
             let b := eval vm_compute in (bool_decide P) in
             change (bool_decide P) with b; cbn beta iota
         end.

Lemma updateField_step (f : Field) (v : string) (st : FormState) :
  currentStep (updateField f v st) = currentStep st.
Proof.
  unfold updateField.
  repeat match goal with |- context [if ?b then _ else _] => destruct b end; reflexivity.
Qed.

Lemma updateField_wellformed (f : Field) (v : string) (st : FormState) :
  wellformed (formData st) -> wellformed (formData (updateField f v st)).
Proof.
  intros Hwf. pose proof Hwf as (Hn & Ha & Hh & Hw & Hs & Hi).
  destruct f; unfold updateField; cbn [bool_decide decide_rel];
    eval_field_tests;
    try match goal with
        | |- context [String.eqb v "" || ?r v] =>
            destruct (String.eqb v "" || r v) eqn:E; [|exact Hwf];
            first [apply accepted_numeric in E | apply accepted_name in E]
        end;
    unfold wellformed, setFormData, set_field; cbn; repeat split; assumption.
Qed.

Lemma dispatch_clean (ev : UIEvent) (st : FormState) :
  Clean st -> Clean (fst (dispatch ev st)).
Proof.
  intros [Hstep Hwf]. destruct ev as [f v| |]; cbn [dispatch fst].
  - split; [by rewrite updateField_step | by apply updateField_wellformed].
  - destruct (isCurrentStepValid st); [|by split]. unfold goToNextStep, Clean.
    destruct (Z.ltb_spec (currentStep st) 3); cbn [fst currentStep formData];
      (split; [lia | done]).
  - destruct (Z.eqb_spec (currentStep st) 1); [by split|]. unfold goToPreviousStep, Clean.
    destruct (Z.ltb_spec 1 (currentStep st)); cbn [currentStep formData];
      (split; [lia | done]).
Qed.

Lemma Clean_initialState : Clean initialState.
Proof. split; [by left | repeat split; reflexivity]. Qed.

Lemma run_clean (evs : list UIEvent) :
  forall st, Clean st -> Clean (fst (run evs st)).
Proof.
  induction evs as [|ev rest IH]; intros st HC; cbn [run]; [done|].
  pose proof (dispatch_clean ev st HC) as HC'.
  destruct (dispatch ev st) as [st' out]. cbn [fst] in HC'.
  specialize (IH st' HC'). destruct (run rest st') as [st'' outs]. exact IH.
Qed.

(** C9.  The form does not keep every bad profile back.  The first step is
    checked when Next is pressed on it and not again, and [updateField]
    stores a change of its inputs afterwards as well.  The user who fills
    the form in well, presses Next, and then, in the inputs of the first
    step, clears the name and sets the age to zero, goes on to submit: the
    form hands over a profile with an empty name and the age 0, which the
    check of the first step refuses, and which breaks the constraints on a
    profile. *)
Theorem form_hands_over_unchecked_profile :
  snd (run late_edit_session initialState) = [ana_unnamed]
  /\ name ana_unnamed = ""
  /\ js_gt_zero (parseFloat (age ana_unnamed)) = false
  /\ step1_valid ana_unnamed = false
  /\ ~ profile_ok ana_unnamed.
Proof.
  split; [vm_compute; reflexivity|]. split; [reflexivity|].
  split; [vm_compute; reflexivity|]. split; [vm_compute; reflexivity|].
  intros [H _]. by apply H.
Qed.

(** * Further properties *)

(** ** The schedule of the executor *)

Lemma waits_app (t t' : Trace) : waits (t ++ t') = waits t ++ waits t'.
Proof.
  induction t as [|ev t IH]; [reflexivity|]. destruct ev; cbn; by rewrite IH.
Qed.

Lemma requests_retry_rounds (req : ChatRequest) (k : nat) :
  forall retries delay, requests (retry_rounds req k retries delay) = k.
Proof.
  induction k as [|k IH]; intros retries delay; [reflexivity|].
  cbn [retry_rounds]. rewrite requests_app, IH. reflexivity.
Qed.

Lemma waits_retry_rounds (req : ChatRequest) (k : nat) :
  forall retries delay, waits (retry_rounds req k retries delay) = backoff_delays k delay.
Proof.
  induction k as [|k IH]; intros retries delay; [reflexivity|].
  cbn [retry_rounds]. rewrite waits_app, IH. reflexivity.
Qed.

Lemma backoff_delays_seq (k : nat) :
  forall delay, backoff_delays k delay = List.map (fun i => delay * 2 ^ Z.of_nat i) (seq 0 k).
Proof.
  induction k as [|k IH]; intros delay; [reflexivity|].
  cbn [backoff_delays seq List.map]. f_equal; [cbn; lia|].
  rewrite IH, <- seq_shift, List.map_map. apply List.map_ext. intros i.
  rewrite Nat2Z.inj_succ, Z.pow_succ_r by lia. lia.
Qed.

Lemma total_backoff_delays (k : nat) :
  forall delay, total (backoff_delays k delay) = delay * (2 ^ Z.of_nat k - 1).
Proof.
  induction k as [|k IH]; intros delay; [cbn; lia|].
  cbn [backoff_delays total fold_right]. fold (total (backoff_delays k (delay * 2))).
  rewrite IH, Nat2Z.inj_succ, Z.pow_succ_r by lia. lia.
Qed.

(** What the executor does with a request, whatever the endpoint does: [k]
    failed rounds, each on a retryable error, and one more request, whose
    outcome is the outcome of the executor. *)
Lemma retry_create_rounds (openai : Client) (req : ChatRequest) (retries : nat) :
  forall delay t,
  exists k, (k <= retries)%nat
    /\ retryWithBackoff (create openai req) retries delay t
       = (openai (requests t + k)%nat req,
          t ++ retry_rounds req k retries delay ++ [Request req])
    /\ (forall i, (i < k)%nat ->
          exists e, openai (requests t + i)%nat req = Throw e /\ isRetryable e = true)
    /\ ((k < retries)%nat ->
        forall e, openai (requests t + k)%nat req = Throw e -> isRetryable e = false).
Proof.
  induction retries as [|r IH]; intros delay t; rewrite retry_unfold; unfold create at 1.
  - exists O. rewrite Nat.add_0_r. split; [lia|]. split; [by destruct (openai _ _)|].
    split; intros; lia.
  - destruct (openai (requests t) req) as [response|e] eqn:E.
    { exists O. rewrite Nat.add_0_r, E. split; [lia|]. split; [done|].
      split; [intros; lia | intros _ e; discriminate]. }
    destruct (isRetryable e) eqn:He.
    + destruct (IH (delay * 2)
                  ((t ++ [Request req])
                   ++ [Console LogLevel [LStr (retry_message delay (S r))]; Wait delay]))
        as (k & Hk & Hrun & Hbefore & Hlast).
      assert (Hreq : forall i,
        (requests ((t ++ [Request req])
                   ++ [Console LogLevel [LStr (retry_message delay (S r))]; Wait delay]) + i
         = requests t + S i)%nat).
      { intros i. rewrite !requests_app. cbn. lia. }
      exists (S k). split; [lia|]. split; [|split].
      * rewrite Hrun, Hreq. f_equal. cbn [retry_rounds pred]. by rewrite <- !app_assoc.
      * intros [|i] Hi.
        -- exists e. by rewrite Nat.add_0_r.
        -- rewrite <- Hreq. apply Hbefore. lia.
      * intros Hlt e'. rewrite <- Hreq. apply Hlast. lia.
    + exists O. rewrite Nat.add_0_r, E. split; [lia|]. split; [done|].
      split; [intros; lia|]. intros _ e' [= <-]. done.
Qed.

(** X1.  Whatever the number of retries and the first delay, when every call
    fails with a retryable error the executor makes one request more than it
    has retries, waits before each retry for the first delay doubled as many
    times as there were retries before, and throws the error of the last
    request. *)
Theorem retry_schedule_doubles (openai : Client) (req : ChatRequest) (e : nat -> Error)
    (retries : nat) (delay : Z) (t : Trace) :
  (forall n, openai n req = Throw (e n)) ->
  (forall n, isRetryable (e n) = true) ->
  exists added,
    retryWithBackoff (create openai req) retries delay t
      = (Throw (e (requests t + retries)%nat), t ++ added)
    /\ requests added = S retries
    /\ waits added = List.map (fun i => delay * 2 ^ Z.of_nat i) (seq 0 retries).
Proof.
  intros Hfail Hretry. exists (failing_schedule req retries delay).
  split; [by apply retry_always_failing|].
  clear. revert delay. induction retries as [|r IH]; intros delay; [by split|].
  destruct (IH (delay * 2)) as [H1 H2]. cbn [failing_schedule]. split.
  - rewrite requests_app, H1. reflexivity.
  - rewrite waits_app, H2, <- !backoff_delays_seq. reflexivity.
Qed.

Lemma retry_schedule_doubles_witness :
  exists added,
    retryWithBackoff (create always_500 (plan_request ana)) 4 250 []
      = (Throw (APIError (Some 500) "Internal Server Error"), added)
    /\ requests added = 5%nat
    /\ waits added = [250; 500; 1000; 2000].
Proof.
  destruct (retry_schedule_doubles always_500 (plan_request ana)
              (fun _ => APIError (Some 500) "Internal Server Error") 4 250 [])
    as (added & H1 & H2 & H3); [reflexivity | reflexivity |].
  exists added. repeat split; assumption.
Defined.

(** X2.  Whatever the endpoint does, the executor makes some number [k] of
    failed rounds, at most its number of retries, each on a retryable error,
    and then one last request whose outcome, completion or error, is its
    own; so it makes [k + 1] requests, at most one more than it has
    retries, and waits [k] times, for the first delay, its double, and so
    on. *)
Theorem retry_any_endpoint (openai : Client) (req : ChatRequest) (retries : nat)
    (delay : Z) (t : Trace) :
  exists (k : nat) (added : Trace),
    (k <= retries)%nat
    /\ retryWithBackoff (create openai req) retries delay t
       = (openai (requests t + k)%nat req, t ++ added)
    /\ requests added = S k
    /\ waits added = List.map (fun i => delay * 2 ^ Z.of_nat i) (seq 0 k)
    /\ (forall i, (i < k)%nat ->
          exists e, openai (requests t + i)%nat req = Throw e /\ isRetryable e = true)
    /\ ((k < retries)%nat ->
        forall e, openai (requests t + k)%nat req = Throw e -> isRetryable e = false).
Proof.
  destruct (retry_create_rounds openai req retries delay t) as (k & Hk & Hrun & Hb & Hl).
  exists k, (retry_rounds req k retries delay ++ [Request req]).
  split; [done|]. split; [done|]. split; [|split; [|split; done]].
  - rewrite requests_app, requests_retry_rounds. cbn. lia.
  - rewrite waits_app, waits_retry_rounds, backoff_delays_seq. cbn. by rewrite app_nil_r.
Qed.

Lemma retry_create_recovers (openai : Client) (req : ChatRequest) (response : Response)
    (k : nat) :
  forall retries delay t,
    (k <= retries)%nat ->
    (forall i, (i < k)%nat ->
       exists e, openai (requests t + i)%nat req = Throw e /\ isRetryable e = true) ->
    openai (requests t + k)%nat req = Ok response ->
    retryWithBackoff (create openai req) retries delay t
      = (Ok response, t ++ retry_rounds req k retries delay ++ [Request req]).
Proof.
  induction k as [|k IH]; intros retries delay t Hk Hfail Hok.
  - apply retry_success. unfold create. rewrite Nat.add_0_r in Hok. by rewrite Hok.
  - destruct retries as [|r]; [lia|].
    destruct (Hfail O ltac:(lia)) as (e & He & Hr). rewrite Nat.add_0_r in He.
    rewrite retry_unfold. unfold create at 1. rewrite He, Hr.
    rewrite (IH r (delay * 2)); [| lia | |].
    + cbn [retry_rounds pred]. by rewrite <- !app_assoc.
    + intros i Hi. destruct (Hfail (S i) ltac:(lia)) as (e' & He' & Hr').
      exists e'. split; [|done]. rewrite <- He'. f_equal. rewrite !requests_app. cbn. lia.
    + rewrite <- Hok. f_equal. rewrite !requests_app. cbn. lia.
Qed.

(** X3.  When the first [k] requests fail with retryable errors, [k] being
    at most the number of retries, and the next one is answered, the
    executor returns that completion, after [k + 1] requests and [k] waits
    of the first delay, its double, and so on: later answers of the
    endpoint are not asked for. *)
Theorem retry_recovers_after_transient_failures (openai : Client) (req : ChatRequest)
    (response : Response) (k retries : nat) (delay : Z) (t : Trace) :
  (k <= retries)%nat ->
  (forall i, (i < k)%nat ->
     exists e, openai (requests t + i)%nat req = Throw e /\ isRetryable e = true) ->
  openai (requests t + k)%nat req = Ok response ->
  exists added,
    retryWithBackoff (create openai req) retries delay t = (Ok response, t ++ added)
    /\ requests added = S k
    /\ waits added = List.map (fun i => delay * 2 ^ Z.of_nat i) (seq 0 k).
Proof.
  intros Hk Hfail Hok. exists (retry_rounds req k retries delay ++ [Request req]).
  split; [by apply retry_create_recovers|]. split.
  - rewrite requests_app, requests_retry_rounds. cbn. lia.
  - rewrite waits_app, waits_retry_rounds, backoff_delays_seq. cbn. by rewrite app_nil_r.
Qed.

Lemma retry_recovers_after_transient_failures_witness :
  exists added,
    retryWithBackoff (create (busy_then_reply "{}") (plan_request ana)) 2 1000 []
      = (Ok (reply "{}"), added)
    /\ requests added = 2%nat
    /\ waits added = [1000].
Proof.
  destruct (retry_recovers_after_transient_failures (busy_then_reply "{}") (plan_request ana)
              (reply "{}") 1 2 1000 []) as (added & H1 & H2 & H3).
  - lia.
  - intros i Hi. assert (i = O) as -> by lia. eexists. split; reflexivity.
  - reflexivity.
  - exists added. repeat split; assumption.
Defined.

(** ** The requests of generateFitnessPlan *)

Lemma fallback_outcome_requests (e : Error) (t : Trace) :
  requests (snd (fallback_outcome e t)) = requests t
  /\ waits (snd (fallback_outcome e t)) = waits t.
Proof.
  unfold fallback_outcome. cbn [snd]. rewrite requests_app, waits_app. cbn.
  by rewrite Nat.add_0_r, app_nil_r.
Qed.

(** The console output of the catch block apart, the trace of
    [generateFitnessPlan] is that of the executor. *)
Lemma generateFitnessPlan_trace (openai : Client) (userData : FormData) (t : Trace) :
  requests (snd (generateFitnessPlan openai userData t))
    = requests (snd (retryWithBackoff (create openai (plan_request userData)) 2 1000 t))
  /\ waits (snd (generateFitnessPlan openai userData t))
    = waits (snd (retryWithBackoff (create openai (plan_request userData)) 2 1000 t)).
Proof.
  rewrite generateFitnessPlan_unfold.
  destruct (retryWithBackoff _ 2 1000 t) as [[response|e] t1]; cbn [snd];
    [|apply fallback_outcome_requests].
  destruct (choices response) as [|c cs]; [apply fallback_outcome_requests|].
  destruct (js_not_content _); [apply fallback_outcome_requests|].
  destruct (JSON_parse _); [done | apply fallback_outcome_requests].
Qed.

(** X4.  Whatever the endpoint does and whatever the profile,
    [generateFitnessPlan] sends at least one and at most three requests and
    waits at most 3000 ms in all: not at all, for 1000 ms, or for 1000 ms
    and then 2000 ms. *)
Theorem generateFitnessPlan_bounded_effort (openai : Client) (userData : FormData)
    (t : Trace) :
  let t' := snd (generateFitnessPlan openai userData t) in
  exists new_waits,
    (requests t + 1 <= requests t' <= requests t + 3)%nat
    /\ waits t' = waits t ++ new_waits
    /\ (new_waits = [] \/ new_waits = [1000] \/ new_waits = [1000; 2000])
    /\ total new_waits <= 3000.
Proof.
  intros t'. subst t'. destruct (generateFitnessPlan_trace openai userData t) as [-> ->].
  destruct (retry_create_rounds openai (plan_request userData) 2 1000 t)
    as (k & Hk & -> & _). cbn [snd].
  exists (backoff_delays k 1000).
  rewrite !requests_app, requests_retry_rounds, !waits_app, waits_retry_rounds.
  cbn [requests List.filter is_request length waits]. rewrite app_nil_r.
  split; [lia|]. split; [done|].
  destruct k as [|[|[|k]]]; [| | |lia]; cbn; (split; [tauto | lia]).
Qed.

(** X5.  Once the endpoint has answered the first request with a
    completion, whatever is in it (no choice, a null or empty content, text
    that is not JSON), [generateFitnessPlan] sends no second request and
    does not wait: a completion that cannot be used is replaced by the
    fallback, not asked for again. *)
Theorem completion_is_never_retried (openai : Client) (userData : FormData) (t : Trace)
    (response : Response) :
  openai (requests t) (plan_request userData) = Ok response ->
  requests (snd (generateFitnessPlan openai userData t)) = S (requests t)
  /\ waits (snd (generateFitnessPlan openai userData t)) = waits t
  /\ (unusable response ->
      fst (generateFitnessPlan openai userData t) = Ok FALLBACK_PLAN).
Proof.
  intros H.
  assert (Hretry : retryWithBackoff (create openai (plan_request userData)) 2 1000 t
                   = (Ok response, t ++ [Request (plan_request userData)])).
  { apply retry_success. unfold create. by rewrite H. }
  destruct (generateFitnessPlan_trace openai userData t) as [-> ->].
  rewrite Hretry. cbn [snd]. rewrite requests_snoc_request, waits_app. cbn.
  rewrite app_nil_r. split; [done|]. split; [done|].
  unfold unusable. rewrite generateFitnessPlan_unfold, Hretry.
  destruct (choices response) as [|c cs]; [done|]. by intros ->.
Qed.

Lemma completion_is_never_retried_witness :
  requests (snd (generateFitnessPlan always_no_choice ana [])) = 1%nat
  /\ fst (generateFitnessPlan always_no_choice ana []) = Ok FALLBACK_PLAN.
Proof.
  destruct (completion_is_never_retried always_no_choice ana [] {| choices := [] |} eq_refl)
    as (H1 & _ & H3).
  split; [exact H1 | exact (H3 I)].
Defined.

(** X6.  When the first request fails with a retryable error and the second
    is answered with a completion whose first choice holds text that
    [JSON.parse] accepts, [generateFitnessPlan] waits 1000 ms once and
    returns the parsed value, with no fallback warning. *)
Theorem generateFitnessPlan_recovers (openai : Client) (userData : FormData) (t : Trace)
    (e : Error) (response : Response) (c : Choice) (cs : list Choice) (body : string)
    (v : value) :
  openai (requests t) (plan_request userData) = Throw e ->
  isRetryable e = true ->
  openai (S (requests t)) (plan_request userData) = Ok response ->
  choices response = c :: cs ->
  msg_content (message c) = Some body ->
  JSON_parse body = Ok v ->
  generateFitnessPlan openai userData t
    = (Ok v,
       t ++ [ Request (plan_request userData);
              Console LogLevel [LStr "API call failed. Retrying in 1000ms... (2 attempts left)"];
              Wait 1000;
              Request (plan_request userData) ])
  /\ origin_of (snd (generateFitnessPlan openai userData t)) = Generated.
Proof.
  intros He Hr Hok Hch Hc Hparse.
  assert (Hretry : retryWithBackoff (create openai (plan_request userData)) 2 1000 t
    = (Ok response,
       t ++ [ Request (plan_request userData);
              Console LogLevel [LStr "API call failed. Retrying in 1000ms... (2 attempts left)"];
              Wait 1000;
              Request (plan_request userData) ])).
  { rewrite (retry_create_recovers openai (plan_request userData) response 1 2 1000 t).
    - reflexivity.
    - lia.
    - intros i Hi. assert (i = O) as -> by lia. exists e. by rewrite Nat.add_0_r.
    - by rewrite Nat.add_1_r. }
  assert (Hrun : generateFitnessPlan openai userData t
    = (Ok v,
       t ++ [ Request (plan_request userData);
              Console LogLevel [LStr "API call failed. Retrying in 1000ms... (2 attempts left)"];
              Wait 1000;
              Request (plan_request userData) ])).
  { rewrite (generateFitnessPlan_on_body openai userData t _ response c cs body Hretry Hch Hc),
      Hparse.
    destruct (String.eqb_spec body "") as [->|]; [|reflexivity].
    rewrite JSON_parse_empty in Hparse. discriminate. }
  split; [exact Hrun|]. rewrite Hrun. cbn [snd].
  change [ Request (plan_request userData);
           Console LogLevel [LStr "API call failed. Retrying in 1000ms... (2 attempts left)"];
           Wait 1000;
           Request (plan_request userData) ]
    with ([ Request (plan_request userData);
            Console LogLevel [LStr "API call failed. Retrying in 1000ms... (2 attempts left)"];
            Wait 1000 ] ++ [Request (plan_request userData)]).
  rewrite app_assoc. apply origin_of_request.
Qed.

Lemma generateFitnessPlan_recovers_witness :
  fst (generateFitnessPlan (busy_then_reply plan_with_extra_key) ana [])
    = Ok parsed_plan_with_extra_key
  /\ waits (snd (generateFitnessPlan (busy_then_reply plan_with_extra_key) ana [])) = [1000].
Proof.
  destruct (generateFitnessPlan_recovers (busy_then_reply plan_with_extra_key) ana []
              (APIError (Some 429) "Too Many Requests") (reply plan_with_extra_key) _ _
              plan_with_extra_key parsed_plan_with_extra_key
              eq_refl eq_refl eq_refl eq_refl eq_refl) as [H _];
    [vm_compute; reflexivity|].
  rewrite H. split; reflexivity.
Defined.

(** ** generateMotivationQuote *)

Lemma requests_snoc_console (t : Trace) (level : Level) (args : list LogArg) :
  requests (t ++ [Console level args]) = requests t.
Proof. rewrite requests_app. cbn. lia. Qed.

(** One call of the operation of [generateMotivationQuote], by what the
    endpoint answers. *)
Lemma quote_operation_unfold (openai : Client) (userData : FormData) (t : Trace) :
  let t1 := t ++ [ Console LogLevel [LStr "Generating motivation quote for:";
                                     LStr (name userData); LStr (goal userData)];
                   Request (quote_request userData) ] in
  quote_operation openai userData t =
  match openai (requests t) (quote_request userData) with
  | Throw e => (Throw e, t1)
  | Ok response =>
      match choices response with
      | [] => (Throw (TypeError "Cannot read properties of undefined (reading 'message')"), t1)
      | c :: _ =>
          match msg_content (message c) with
          | None => (Throw (TypeError "Cannot read properties of null (reading 'trim')"), t1)
          | Some s =>
              (Ok (trim s),
               t1 ++ [Console LogLevel [LStr "AI Quote generated successfully:"; LStr (trim s)]])
          end
      end
  end.
Proof.
  intros t1. subst t1.
  unfold quote_operation, mbind, M_bind, console_log, emit, create, first_choice_content,
    mret, M_ret, throw.
  cbn -[requests trim]. rewrite requests_snoc_console, <- app_assoc. cbn [app].
  destruct (openai _ _) as [response|e]; [|reflexivity].
  destruct (choices response) as [|c cs]; [reflexivity|].
  destruct (msg_content (message c)); reflexivity.
Qed.

(** X7.  When the endpoint answers the first request with a completion
    whose first choice has a text content, [generateMotivationQuote] returns
    that text with the white space at both ends taken off, after this one
    request and without waiting; it logs the call and the quote. *)
Theorem quote_is_the_trimmed_content (openai : Client) (userData : FormData) (t : Trace)
    (response : Response) (c : Choice) (cs : list Choice) (s : string) :
  openai (requests t) (quote_request userData) = Ok response ->
  choices response = c :: cs ->
  msg_content (message c) = Some s ->
  generateMotivationQuote openai userData t
    = (Ok (trim s),
       t ++ [ Console LogLevel [LStr "Generating motivation quote for:";
                                LStr (name userData); LStr (goal userData)];
              Request (quote_request userData);
              Console LogLevel [LStr "AI Quote generated successfully:"; LStr (trim s)] ]).
Proof.
  intros H Hch Hc. rewrite generateMotivationQuote_unfold.
  rewrite (retry_success _ 2 1000 t (trim s)
             (t ++ [ Console LogLevel [LStr "Generating motivation quote for:";
                                       LStr (name userData); LStr (goal userData)];
                     Request (quote_request userData);
                     Console LogLevel [LStr "AI Quote generated successfully:";
                                       LStr (trim s)] ])); [reflexivity|].
  rewrite quote_operation_unfold, H, Hch, Hc. by rewrite <- app_assoc.
Qed.

Lemma quote_is_the_trimmed_content_witness :
  fst (generateMotivationQuote (always_reply padded_quote) ana []) = Ok "Keep going, Ana!".
Proof.
  rewrite (quote_is_the_trimmed_content (always_reply padded_quote) ana []
             (reply padded_quote) _ _ padded_quote eq_refl eq_refl eq_refl).
  reflexivity.
Defined.

Lemma quote_operation_unusable (openai : Client) (userData : FormData) (t : Trace)
    (response : Response) :
  openai (requests t) (quote_request userData) = Ok response ->
  unusable response ->
  exists e,
    isRetryable e = true /\ status e = None
    /\ quote_operation openai userData t
       = (Throw e,
          t ++ [ Console LogLevel [LStr "Generating motivation quote for:";
                                   LStr (name userData); LStr (goal userData)];
                 Request (quote_request userData) ]).
Proof.
  intros H Hun. rewrite quote_operation_unfold, H. unfold unusable in Hun.
  destruct (choices response) as [|c cs].
  - eexists. split; [|split; [|reflexivity]]; reflexivity.
  - rewrite Hun. eexists. split; [|split; [|reflexivity]]; reflexivity.
Qed.

(** X8.  A completion from which no content can be read makes the quote
    call fail inside the operation handed to the executor, with an error
    that has no status, so it is asked for again: when every completion is
    such, [generateMotivationQuote] sends three requests, waits 1000 ms and
    2000 ms, and returns the fixed fallback quote. *)
Theorem unusable_quote_completions_are_retried (openai : Client) (userData : FormData)
    (t : Trace) :
  (forall n, exists response,
     openai n (quote_request userData) = Ok response /\ unusable response) ->
  fst (generateMotivationQuote openai userData t) = Ok QUOTE_FALLBACK
  /\ requests (snd (generateMotivationQuote openai userData t)) = (requests t + 3)%nat
  /\ waits (snd (generateMotivationQuote openai userData t)) = waits t ++ [1000; 2000].
Proof.
  intros Hall.
  assert (Hstep : forall t0, exists e,
    isRetryable e = true /\ status e = None
    /\ quote_operation openai userData t0
       = (Throw e,
          t0 ++ [ Console LogLevel [LStr "Generating motivation quote for:";
                                    LStr (name userData); LStr (goal userData)];
                  Request (quote_request userData) ])).
  { intros t0. destruct (Hall (requests t0)) as (response & H & Hun).
    by apply (quote_operation_unusable openai userData t0 response). }
  rewrite generateMotivationQuote_unfold.
  destruct (Hstep t) as (e1 & Hr1 & _ & H1).
  rewrite retry_unfold, H1, Hr1.
  match goal with |- context [retryWithBackoff _ 1 _ ?t0] =>
    destruct (Hstep t0) as (e2 & Hr2 & _ & H2) end.
  rewrite retry_unfold, H2, Hr2.
  match goal with |- context [retryWithBackoff _ 0 _ ?t0] =>
    destruct (Hstep t0) as (e3 & _ & Hs3 & H3) end.
  rewrite retry_unfold, H3. unfold quote_fallback_outcome. cbn [fst snd].
  rewrite Hs3. cbn [js_seq orb]. split; [done|].
  rewrite !requests_app, !waits_app. cbn. rewrite ?app_nil_r. split; [lia|].
  by rewrite <- app_assoc.
Qed.

Lemma unusable_quote_completions_are_retried_witness :
  fst (generateMotivationQuote always_no_choice ana []) = Ok QUOTE_FALLBACK
  /\ requests (snd (generateMotivationQuote always_no_choice ana [])) = 3%nat
  /\ waits (snd (generateMotivationQuote always_no_choice ana [])) = [1000; 2000].
Proof.
  apply (unusable_quote_completions_are_retried always_no_choice ana []).
  intros n. exists {| choices := [] |}. split; [reflexivity | exact I].
Defined.

(** X9.  The request of [generateMotivationQuote] is made from the name, the
    goal and the fitness level of the profile, each put into the prompt
    once, and from nothing else in it: age, gender, measures, location,
    diet, sleep, water and stress level are not sent. *)
Theorem quote_prompt_uses_three_fields :
  (forall f : Field,
     substitutions f quotePrompt = if bool_decide (f ∈ quote_fields) then 1%nat else 0%nat)
  /\ (forall u u' : FormData,
        name u = name u' -> goal u = goal u' -> fitnessLevel u = fitnessLevel u' ->
        quote_request u = quote_request u').
Proof.
  assert (Hcount : forall f : Field,
    substitutions f quotePrompt = if bool_decide (f ∈ quote_fields) then 1%nat else 0%nat).
  { intros f. destruct f; vm_compute; reflexivity. }
  split; [exact Hcount|]. intros u u' Hn Hg Hl. unfold quote_request. do 3 f_equal.
  apply render_depends_on_substituted. intros f Hf. rewrite Hcount in Hf.
  destruct f; try (vm_compute in Hf; lia); assumption.
Qed.

Lemma quote_prompt_uses_three_fields_witness : quote_request ana = quote_request ana_rested.
Proof.
  destruct quote_prompt_uses_three_fields as [_ H]. apply (H ana ana_rested); reflexivity.
Defined.

(** ** More on the form *)

Lemma updateField_accepts (f : Field) (v : string) (st : FormState) :
  updateField f v st = if accepts f v then setFormData f v st else st.
Proof.
  unfold updateField, accepts.
  destruct (bool_decide (f ∈ numericFields)); [reflexivity|].
  destruct (bool_decide (f = FName)); reflexivity.
Qed.

Lemma is_ws_seq_cases (w : string) :
  is_ws_seq w = true -> exists cp, In cp js_whitespace /\ utf8 cp = w.
Proof.
  unfold is_ws_seq. intros (cp & Hin & Heq)%existsb_exists.
  exists cp. split; [done|]. by apply String.eqb_eq.
Qed.

(** A property of the text of every white space character. *)
Lemma is_ws_seq_all (P : string -> Prop) :
  Forall (fun cp => P (utf8 cp)) js_whitespace ->
  forall w, is_ws_seq w = true -> P w.
Proof.
  intros HP w (cp & Hin & <-)%is_ws_seq_cases.
  rewrite List.Forall_forall in HP. by apply HP.
Qed.

Lemma ws_seq_no_letter (w : string) : is_ws_seq w = true -> has_letter w = false.
Proof.
  apply (is_ws_seq_all (fun w => has_letter w = false)).
  repeat constructor.
Qed.

Lemma has_letter_app (s s' : string) :
  has_letter (s +:+ s') = has_letter s || has_letter s'.
Proof.
  induction s as [|c s IH]; [reflexivity|].
  rewrite append_cons. cbn [has_letter]. by rewrite IH, orb_assoc.
Qed.

Lemma trimStart_keeps_letter_bounded (n : nat) :
  forall s, (String.length s < n)%nat -> has_letter s = true ->
            has_letter (trimStart s) = true.
Proof.
  induction n as [|n IH]; intros s Hlen H; [lia|].
  destruct s as [|a r]; [done|]. cbn [trimStart String.length] in *.
  destruct (is_ws_seq (str1 a)) eqn:H1.
  { apply IH; [lia|]. apply ws_seq_no_letter in H1.
    change (String a r) with (str1 a +:+ r) in H. by rewrite has_letter_app, H1 in H. }
  destruct r as [|b r2]; [done|]. cbn [String.length] in *.
  destruct (is_ws_seq (str2 a b)) eqn:H2.
  { apply IH; [lia|]. apply ws_seq_no_letter in H2.
    change (String a (String b r2)) with (str2 a b +:+ r2) in H.
    by rewrite has_letter_app, H2 in H. }
  destruct r2 as [|c r3]; [done|]. cbn [String.length] in *.
  destruct (is_ws_seq (str3 a b c)) eqn:H3; [|done].
  apply IH; [lia|]. apply ws_seq_no_letter in H3.
  change (String a (String b (String c r3))) with (str3 a b c +:+ r3) in H.
  by rewrite has_letter_app, H3 in H.
Qed.

Lemma trimEnd_keeps_letter (s : string) :
  has_letter s = true -> has_letter (trimEnd s) = true.
Proof.
  induction s as [|a r IH]; [done|]. cbn [trimEnd has_letter].
  intros H. assert (Hk : has_letter (String a (trimEnd r)) = true).
  { cbn [has_letter]. destruct (is_letter a); [done|]. cbn [orb] in *. by apply IH. }
  destruct (is_ws_seq (String a (trimEnd r))) eqn:Hws; [|done].
  apply ws_seq_no_letter in Hws. congruence.
Qed.

Lemma trim_keeps_letter (s : string) :
  has_letter s = true -> (0 <? String.length (trim s))%nat = true.
Proof.
  intros H. apply (trimStart_keeps_letter_bounded (S (String.length s))) in H; [|lia].
  apply trimEnd_keeps_letter in H. unfold trim.
  destruct (trimEnd (trimStart s)); [discriminate | reflexivity].
Qed.

Lemma name_without_letter_is_blank_bounded (n : nat) :
  forall v, (String.length v < n)%nat -> name_regex v = true -> has_letter v = false ->
            trimStart v = "".
Proof.
  induction n as [|n IH]; intros v Hlen Hre Hno; [lia|].
  destruct v as [|a r]; [done|]. cbn [name_regex trimStart String.length has_letter] in *.
  apply orb_false_elim in Hno as [Ha Hr]. rewrite Ha in Hre. cbn [orb] in Hre.
  destruct (is_ws_seq (str1 a)); [apply IH; [lia | done | done]|].
  destruct r as [|b r2]; [done|]. cbn [String.length has_letter] in *.
  apply orb_false_elim in Hr as [Hb Hr2].
  destruct (is_ws_seq (str2 a b)); [apply IH; [lia | done | done]|].
  destruct r2 as [|c r3]; [done|]. cbn [String.length has_letter] in *.
  apply orb_false_elim in Hr2 as [Hc Hr3].
  destruct (is_ws_seq (str3 a b c)); [apply IH; [lia | done | done] | done].
Qed.

Lemma named_has_letter (v : string) :
  name_regex v = true -> (0 <? String.length (trim v))%nat = true -> has_letter v = true.
Proof.
  intros Hre Hlen. destruct (has_letter v) eqn:E; [done|].
  unfold trim in Hlen.
  rewrite (name_without_letter_is_blank_bounded (S (String.length v)) v) in Hlen; [done|lia|done|done].
Qed.

Lemma LettersSpaces_name_regex (v : string) : LettersSpaces v -> name_regex v = true.
Proof.
  induction 1 as [|c r Hc _ IH|w r Hw _ IH]; [reflexivity| |].
  - cbn [name_regex]. by rewrite Hc.
  - revert IH. revert w Hw.
    apply (is_ws_seq_all (fun w => name_regex r = true -> name_regex (w +:+ r) = true)).
    repeat constructor; intros H; exact H.
Qed.

Lemma truthy_nonempty (s : string) : truthy s = true -> s <> "".
Proof. unfold truthy. destruct (String.eqb_spec s ""); [discriminate | done]. Qed.

Lemma nonempty_truthy (s : string) : s <> "" -> truthy s = true.
Proof. unfold truthy. by destruct (String.eqb_spec s ""). Qed.

Lemma updateField_step1_fields (f : Field) (v : string) (st : FormState) :
  rendered (currentStep st) f = true -> currentStep st <> 1 ->
  step1_valid (formData (updateField f v st)) = step1_valid (formData st).
Proof.
  intros Hr Hstep.
  destruct f; cbn in Hr; try (apply Z.eqb_eq in Hr; contradiction);
    unfold updateField;
    eval_field_tests;
    reflexivity.
Qed.

Lemma updateField_step2_fields (f : Field) (v : string) (st : FormState) :
  rendered (currentStep st) f = true -> currentStep st = 3 ->
  step2_valid (formData (updateField f v st)) = step2_valid (formData st).
Proof.
  intros Hr Hstep. rewrite Hstep in Hr.
  destruct f; cbn in Hr; try discriminate;
    unfold updateField; eval_field_tests; reflexivity.
Qed.

Lemma dispatch_inv (ev : UIEvent) (st : FormState) :
  on_step ev st = true -> Inv st -> Inv (fst (dispatch ev st)).
Proof.
  intros Hr (Hstep & Hwf & Hvalid). destruct ev as [f v| |]; cbn [dispatch on_step fst] in *.
  - split; [by rewrite updateField_step|]. split; [by apply updateField_wellformed|].
    rewrite updateField_step. intros H1. rewrite updateField_step1_fields; auto.
  - destruct (isCurrentStepValid st) eqn:Hv; [|done].
    unfold goToNextStep, Inv. destruct st as [step d]. cbn [currentStep formData] in *.
    destruct Hstep as [-> | [-> | ->]]; cbn [Z.ltb Z.compare Pos.compare Pos.compare_cont fst];
      cbn [currentStep formData].
    + split; [lia|]. split; [done|]. intros _. exact Hv.
    + split; [lia|]. split; [done|]. intros _. apply Hvalid. lia.
    + split; [lia | split; [done | exact Hvalid]].
  - unfold goToPreviousStep, Inv.
    destruct st as [step d]. cbn [currentStep formData] in *.
    destruct Hstep as [-> | [-> | ->]];
      cbn [Z.eqb Z.ltb Z.compare Pos.eqb Pos.compare Pos.compare_cont]; cbn [currentStep formData].
    + split; [lia | split; [done | exact Hvalid]].
    + split; [lia | split; [done|]]. intros H. lia.
    + split; [lia | split; [done|]]. intros _. apply Hvalid. lia.
Qed.

Lemma dispatch_inv2 (ev : UIEvent) (st : FormState) :
  on_step ev st = true -> Inv2 st ->
  Inv2 (fst (dispatch ev st))
  /\ (forall u, snd (dispatch ev st) = Some u ->
        u = formData st /\ currentStep st = 3 /\ isCurrentStepValid st = true).
Proof.
  intros Hr [HI H2]. pose proof (dispatch_inv ev st Hr HI) as HI'.
  pose proof HI as (Hstep & _ & _).
  split; [split; [exact HI'|] |].
  - destruct ev as [f v| |]; cbn [dispatch on_step fst] in *.
    + rewrite updateField_step. intros H3. rewrite updateField_step2_fields; auto.
    + destruct (isCurrentStepValid st) eqn:Hv; [|done].
      unfold goToNextStep. destruct st as [step d]. cbn [currentStep formData] in *.
      destruct Hstep as [-> | [-> | ->]];
        cbn [Z.ltb Z.compare Pos.compare Pos.compare_cont fst]; cbn [currentStep formData].
      * intros H. lia.
      * intros _. exact Hv.
      * exact H2.
    + unfold goToPreviousStep. destruct st as [step d]. cbn [currentStep formData] in *.
      destruct Hstep as [-> | [-> | ->]];
        cbn [Z.eqb Z.ltb Z.compare Pos.eqb Pos.compare Pos.compare_cont];
        cbn [currentStep formData]; intros H; lia.
  - intros u. destruct ev as [f v| |]; cbn [dispatch snd]; [done | | done].
    destruct (isCurrentStepValid st) eqn:Hv; [|done]. unfold goToNextStep.
    destruct (Z.ltb_spec (currentStep st) 3); [done|]. cbn [snd]. intros [= <-].
    split; [done|]. split; [lia | done].
Qed.

Lemma Inv2_initialState : Inv2 initialState.
Proof.
  split; [|intros H; discriminate H].
  split; [by left|]. split; [repeat split; reflexivity|]. intros H. by destruct H.
Qed.

Lemma run_inv2 (evs : list UIEvent) :
  forall st, on_current_step evs st = true -> Inv2 st ->
    Inv2 (fst (run evs st))
    /\ (forall u, In u (snd (run evs st)) ->
          exists st0, Inv2 st0 /\ currentStep st0 = 3 /\ isCurrentStepValid st0 = true
                      /\ u = formData st0).
Proof.
  induction evs as [|ev rest IH]; intros st Hon HI; cbn [run]; [by split|].
  cbn [on_current_step] in Hon. apply andb_prop in Hon as [Hev Hrest].
  destruct (dispatch_inv2 ev st Hev HI) as [HI' Hout].
  destruct (dispatch ev st) as [st' out]. cbn [fst snd] in *.
  destruct (IH st' Hrest HI') as [HI'' Houts].
  destruct (run rest st') as [st'' outs]. cbn [fst snd] in *.
  split; [done|]. intros u [Hu|Hu]%in_app_or; [|auto].
  destruct out as [u0|]; [|done]. destruct Hu as [<-|Hu]; [|destruct Hu].
  destruct (Hout u0 eq_refl) as (-> & H3 & Hv). by exists st.
Qed.

(** X10.  As long as every input is changed while its step is the current
    one, a profile the form hands over meets the constraints on a profile
    (a name that is not empty, of letters and white space; age, height,
    weight, sleep hours and water intake decimal numerals of positive
    value), has a value in every one of its twelve fields, and its name has
    at least one letter: a name of white space only does not pass the first
    step, and the choices of the second and third steps cannot be left
    open. *)
Theorem submitted_profile_is_complete (evs : list UIEvent) (u : FormData) :
  on_current_step evs initialState = true ->
  In u (snd (run evs initialState)) ->
  profile_ok u /\ (forall f : Field, field f u <> "") /\ has_letter (name u) = true.
Proof.
  intros Hon Hu. destruct (run_inv2 evs initialState Hon Inv2_initialState) as [_ H].
  destruct (H u Hu) as (st & [(_ & Hwf & H1) H2] & H3 & Hv & ->). clear H Hu.
  specialize (H1 ltac:(lia)). specialize (H2 H3).
  split; [by apply step1_valid_profile_ok|].
  destruct st as [step d]. cbn [currentStep formData] in *. subst step.
  destruct Hwf as (Hn & _).
  unfold step1_valid, step2_valid, isCurrentStepValid in *. cbn [currentStep formData] in *.
  change (1 =? 1) with true in H1. change (2 =? 1) with false in H2.
  change (2 =? 2) with true in H2. change (3 =? 1) with false in Hv.
  change (3 =? 2) with false in Hv. change (3 =? 3) with true in Hv. cbn beta iota in *.
  rewrite !andb_true_iff in H1. rewrite !andb_true_iff in H2. rewrite !andb_true_iff in Hv.
  destruct H1 as [[[[[[Hname Hg] [Ha _]] [Hh _]] [Hw _]] [Hs _]] [Hi _]].
  destruct H2 as [[Hgo Hfl] Hsl]. destruct Hv as [Hlo Hdp].
  pose proof (named_has_letter _ Hn Hname) as Hletter. split; [|exact Hletter].
  intros f. destruct f; cbn [field]; try (by apply truthy_nonempty).
  intros E. rewrite E in Hletter. discriminate.
Qed.

Lemma submitted_profile_is_complete_witness :
  on_current_step ana_session initialState = true
  /\ profile_ok ana
  /\ (forall f : Field, field f ana <> "") /\ has_letter (name ana) = true.
Proof.
  split; [vm_compute; reflexivity|].
  apply (submitted_profile_is_complete ana_session ana); [vm_compute; reflexivity|].
  vm_compute. left. reflexivity.
Defined.

Lemma occurrences_dot_cons (c : ascii) (r : string) :
  occurrences "." (String c r)
  = ((if Ascii.eqb "."%char c then 1 else 0) + occurrences "." r)%nat.
Proof.
  change (occurrences "." (String c r))
    with ((if strip_prefix "." (String c r) is Some _ then 1 else 0) + occurrences "." r)%nat.
  change (strip_prefix "." (String c r))
    with (if Ascii.eqb "."%char c then strip_prefix "" r else None).
  destruct (Ascii.eqb "."%char c); [by destruct r | reflexivity].
Qed.

Lemma occurrences_dot_app (s s' : string) :
  occurrences "." (s +:+ s') = (occurrences "." s + occurrences "." s')%nat.
Proof.
  induction s as [|c s IH]; [reflexivity|].
  rewrite append_cons, !occurrences_dot_cons, IH. lia.
Qed.

Lemma occurrences_dot_digits (s : string) :
  all_chars is_digit s = true -> occurrences "." s = 0%nat.
Proof.
  induction s as [|c s IH]; [reflexivity|]. cbn [all_chars].
  intros [Hc Hs]%andb_prop. rewrite occurrences_dot_cons, IH by done.
  destruct (Ascii.eqb_spec "."%char c) as [<-|]; [discriminate Hc | reflexivity].
Qed.

Lemma numeric_regex_one_dot (v : string) :
  numeric_regex v = true -> (occurrences "." v <= 1)%nat.
Proof.
  unfold numeric_regex. destruct (take_digits_spec v) as [Hv Hds].
  destruct (take_digits v) as [ds r]. cbn [fst snd] in *.
  assert (Htail : forall r1, (let '(_, r2) := take_digits r1 in String.eqb r2 "") = true ->
                             occurrences "." r1 = 0%nat).
  { intros r1. destruct (take_digits_spec r1) as [Hr1 Hds1].
    destruct (take_digits r1) as [ds1 r2]. cbn [fst snd] in *.
    intros ->%String.eqb_eq. rewrite Hr1, occurrences_dot_app, occurrences_dot_digits by done.
    reflexivity. }
  intros H. rewrite Hv, occurrences_dot_app, occurrences_dot_digits by done.
  destruct r as [|c r']; [cbn; lia|].
  destruct (code c =? 46) eqn:Hc.
  - rewrite occurrences_dot_cons, (Htail r' H). destruct (Ascii.eqb "."%char c); lia.
  - rewrite (Htail _ H). lia.
Qed.

(** X11.  In every state the form can reach, and not only when it is
    submitted, the step is 1, 2 or 3, the name is made of letters and white
    space only, and each of age, height, weight, sleep hours and water
    intake holds nothing but digits and at most one decimal point: what the
    user types against this is not stored. *)
Theorem form_holds_only_clean_input (evs : list UIEvent) :
  let st := fst (run evs initialState) in
  1 <= currentStep st <= 3
  /\ LettersSpaces (name (formData st))
  /\ (forall f, f ∈ numericFields ->
        all_chars digit_or_dot (field f (formData st)) = true
        /\ (occurrences "." (field f (formData st)) <= 1)%nat).
Proof.
  intros st. subst st.
  destruct (run_clean evs initialState Clean_initialState) as [Hstep Hwf].
  destruct Hwf as (Hn & Ha & Hh & Hw & Hs & Hi).
  split; [lia|]. split; [by apply name_regex_sound|].
  intros f Hf. assert (Hre : numeric_regex (field f (formData (fst (run evs initialState)))) = true).
  { unfold numericFields in Hf. rewrite !elem_of_cons in Hf.
    destruct Hf as [-> | [-> | [-> | [-> | [-> | Hf]]]]]; [done..|]. by apply elem_of_nil in Hf. }
  split; [by apply numeric_regex_chars | by apply numeric_regex_one_dot].
Qed.

Lemma run_navigation (evs : list UIEvent) :
  forall st, forallb is_navigation evs = true ->
    formData (fst (run evs st)) = formData st
    /\ (forall u, In u (snd (run evs st)) -> u = formData st).
Proof.
  induction evs as [|ev rest IH]; intros st Hnav; cbn [run]; [by split|].
  cbn [forallb] in Hnav. apply andb_prop in Hnav as [Hev Hrest].
  assert (Hd : formData (fst (dispatch ev st)) = formData st
               /\ (forall u, snd (dispatch ev st) = Some u -> u = formData st)).
  { destruct ev as [f v| |]; [discriminate | |]; cbn [dispatch].
    - destruct (isCurrentStepValid st); [|done]. unfold goToNextStep.
      destruct (currentStep st <? 3); cbn [fst snd]; split; try done. by intros u [= <-].
    - cbn [fst snd]. split; [|done]. unfold goToPreviousStep.
      destruct (currentStep st =? 1); [done|]. by destruct (1 <? currentStep st). }
  destruct Hd as [Hd1 Hd2]. destruct (dispatch ev st) as [st' out]. cbn [fst snd] in *.
  destruct (IH st' Hrest) as [H1 H2]. destruct (run rest st') as [st'' outs].
  cbn [fst snd] in *. split; [congruence|].
  intros u [Hu|Hu]%in_app_or.
  - destruct out as [u0|]; [|done]. destruct Hu as [<-|Hu]; [|destruct Hu]. by apply Hd2.
  - rewrite <- Hd1. by apply H2.
Qed.

(** X12.  Moving between the steps never changes what was entered: after
    any presses of Back and Next, from any state, the form data is what it
    was, and a profile handed over on the way is that data. *)
Theorem navigation_keeps_the_input (evs : list UIEvent) (st : FormState) :
  forallb is_navigation evs = true ->
  formData (fst (run evs st)) = formData st
  /\ (forall u, In u (snd (run evs st)) -> u = formData st).
Proof. apply run_navigation. Qed.

Lemma navigation_keeps_the_input_witness :
  formData (fst (run [ClickBack; ClickBack; ClickNext; ClickBack; ClickNext; ClickNext; ClickNext]
                     {| currentStep := 3; formData := ana |})) = ana.
Proof.
  destruct (navigation_keeps_the_input
              [ClickBack; ClickBack; ClickNext; ClickBack; ClickNext; ClickNext; ClickNext]
              {| currentStep := 3; formData := ana |} eq_refl) as [H _].
  exact H.
Defined.

Lemma run_needs_next (evs : list UIEvent) :
  forall st, 1 <= currentStep st <= 3 ->
    snd (run evs st) <> [] ->
    (4 - currentStep st <= Z.of_nat (count_next evs)).
Proof.
  induction evs as [|ev rest IH]; intros st Hstep Hout; cbn [run] in *; [done|].
  assert (Hd : 1 <= currentStep (fst (dispatch ev st)) <= 3
               /\ currentStep (fst (dispatch ev st))
                  <= currentStep st + (if is_next ev then 1 else 0)
               /\ (snd (dispatch ev st) <> None -> is_next ev = true /\ currentStep st = 3)).
  { assert (Hnone : forall P : Prop, @None FormData <> None -> P) by (intros P H; by destruct H).
    destruct ev as [f v| |]; cbn [dispatch is_next fst snd].
    - rewrite updateField_step. split; [lia | split; [lia | apply Hnone]].
    - destruct (isCurrentStepValid st); cbn [fst snd];
        [|split; [lia | split; [lia | apply Hnone]]].
      unfold goToNextStep.
      destruct (Z.ltb_spec (currentStep st) 3); cbn [fst snd currentStep].
      + split; [lia | split; [lia | apply Hnone]].
      + split; [lia | split; [lia|]]. intros _. split; [reflexivity | lia].
    - unfold goToPreviousStep. destruct (Z.eqb_spec (currentStep st) 1); cbn [fst snd];
        [split; [lia | split; [lia | apply Hnone]]|].
      destruct (Z.ltb_spec 1 (currentStep st)); cbn [currentStep];
        (split; [lia | split; [lia | apply Hnone]]). }
  destruct Hd as (Hb & Hle & Hsub).
  unfold count_next. cbn [List.filter]. fold (count_next rest).
  destruct (dispatch ev st) as [st' out]. cbn [fst snd] in *.
  specialize (IH st' Hb). destruct (run rest st') as [st'' outs]. cbn [fst snd] in *.
  destruct out as [u|].
  - destruct Hsub as [-> H3]; [done|]. cbn [length]. lia.
  - cbn [option_list app] in Hout. specialize (IH Hout).
    destruct (is_next ev); cbn [length]; unfold count_next in *; lia.
Qed.

(** X13.  The form is never submitted short of three presses of the Next /
    Generate Plan button: no order of actions skips a step. *)
Theorem submission_takes_three_steps (evs : list UIEvent) (u : FormData) :
  In u (snd (run evs initialState)) -> (3 <= count_next evs)%nat.
Proof.
  intros Hu.
  pose proof (run_needs_next evs initialState ltac:(cbn; lia)) as H.
  cbn [initialState currentStep] in H.
  assert (snd (run evs initialState) <> []) as Hne by (intros E; rewrite E in Hu; destruct Hu).
  specialize (H Hne). lia.
Qed.

Lemma submission_takes_three_steps_witness : (3 <= count_next ana_session)%nat.
Proof.
  apply (submission_takes_three_steps ana_session ana). vm_compute. left. reflexivity.
Defined.

Lemma run_change (f : Field) (v : string) (rest : list UIEvent) (st : FormState) :
  accepts f v = true ->
  run (Change f v :: rest) st = run rest (setFormData f v st).
Proof.
  intros Ha. cbn [run dispatch]. rewrite updateField_accepts, Ha.
  destruct (run rest _). reflexivity.
Qed.

Lemma run_next_advance (rest : list UIEvent) (st : FormState) :
  isCurrentStepValid st = true -> (currentStep st <? 3) = true ->
  run (ClickNext :: rest) st
  = run rest {| currentStep := currentStep st + 1; formData := formData st |}.
Proof.
  intros Hv Hlt. cbn [run dispatch]. rewrite Hv. unfold goToNextStep. rewrite Hlt.
  destruct (run rest _). reflexivity.
Qed.

Lemma run_next_submit (st : FormState) :
  isCurrentStepValid st = true -> (currentStep st <? 3) = false ->
  run [ClickNext] st = (st, [formData st]).
Proof.
  intros Hv Hlt. cbn [run dispatch]. rewrite Hv. unfold goToNextStep. rewrite Hlt. reflexivity.
Qed.

Lemma positive_number_passes (s : string) :
  positive_binary64 s -> truthy s && js_gt_zero (parseFloat s) = true.
Proof.
  intros (_ & m & e & Hp & Hm & Hz). unfold parseFloat. rewrite Hp.
  apply andb_true_intro. split; [|by apply positive_toBinary64].
  apply nonempty_truthy. intros ->. discriminate Hp.
Qed.

Lemma positive_number_accepted (s : string) :
  positive_binary64 s -> String.eqb s "" || numeric_regex s = true.
Proof. intros [-> _]. apply orb_true_r. Qed.

(** X14.  The form lets every good profile through: for a profile with a
    name of letters and white space that has a letter, positive numbers
    above [2^-1075] (those that [parseFloat] does not round to zero) and a
    value for every choice, typing it in step by step and pressing Next
    three times hands over exactly that profile, once. *)
Theorem good_profile_can_be_submitted (d : FormData) :
  enterable d ->
  run (session_of d) initialState = ({| currentStep := 3; formData := d |}, [d]).
Proof.
  intros (Hls & Hl & Ha & Hh & Hw & Hs & Hi & Hg & Hgo & Hfl & Hsr & Hlo & Hdp).
  pose proof (LettersSpaces_name_regex _ Hls) as Hn.
  destruct d as [n a g h w go fl lo dp sl wi sr]. cbn [name age gender height weight goal
    fitnessLevel location dietPreference sleepHours waterIntake stressLevel] in *.
  unfold session_of. cbn [name age gender height weight goal
    fitnessLevel location dietPreference sleepHours waterIntake stressLevel].
  assert (Hacc : forall f v,
    (f = FName -> name_regex v = true) ->
    (f ∈ numericFields -> positive_binary64 v) -> accepts f v = true).
  { intros f v H1 H2. unfold accepts.
    destruct (bool_decide (f ∈ numericFields)) eqn:E1.
    - apply positive_number_accepted, H2. by apply bool_decide_eq_true in E1.
    - destruct (bool_decide (f = FName)) eqn:E2; [|done].
      rewrite H1; [apply orb_true_r|]. by apply bool_decide_eq_true in E2. }
  assert (Hin : forall f : Field, f ∈ numericFields ->
                f = FAge \/ f = FHeight \/ f = FWeight \/ f = FSleepHours \/ f = FWaterIntake).
  { intros f. unfold numericFields. rewrite !elem_of_cons, elem_of_nil. tauto. }
  do 7 (rewrite run_change;
        [| apply Hacc; [intros [=]; done
                       | intros [E|[E|[E|[E|E]]]]%Hin; try discriminate E; assumption]]).
  rewrite run_next_advance; [| | reflexivity].
  2: { unfold isCurrentStepValid.
       match goal with |- context [currentStep ?st =? 1] =>
         change (currentStep st =? 1) with true end.
       cbn beta iota zeta.
       match goal with |- context [formData ?st] =>
         let d1 := eval vm_compute in (formData st) in change (formData st) with d1 end.
       cbn [name age gender height weight sleepHours waterIntake].
       rewrite (trim_keeps_letter _ Hl), (nonempty_truthy _ Hg), !positive_number_passes by done.
       reflexivity. }
  do 3 (rewrite run_change; [| apply Hacc;
          [intros [=] | intros [E|[E|[E|[E|E]]]]%Hin; discriminate E]]).
  rewrite run_next_advance; [| | reflexivity].
  2: { unfold isCurrentStepValid.
       match goal with |- context [currentStep ?st =? 1] =>
         change (currentStep st =? 1) with false; change (currentStep st =? 2) with true end.
       cbn beta iota zeta.
       match goal with |- context [formData ?st] =>
         let d1 := eval vm_compute in (formData st) in change (formData st) with d1 end.
       cbn [goal fitnessLevel stressLevel].
       by rewrite !nonempty_truthy. }
  do 2 (rewrite run_change; [| apply Hacc;
          [intros [=] | intros [E|[E|[E|[E|E]]]]%Hin; discriminate E]]).
  rewrite run_next_submit; [reflexivity | | reflexivity].
  unfold isCurrentStepValid.
  match goal with |- context [currentStep ?st =? 1] =>
    change (currentStep st =? 1) with false; change (currentStep st =? 2) with false;
    change (currentStep st =? 3) with true end.
  cbn beta iota zeta.
  match goal with |- context [formData ?st] =>
    let d1 := eval vm_compute in (formData st) in change (formData st) with d1 end.
  cbn [location dietPreference]. by rewrite !nonempty_truthy.
Qed.

Lemma good_profile_can_be_submitted_witness :
  run (session_of ana) initialState = ({| currentStep := 3; formData := ana |}, [ana]).
Proof.
  apply good_profile_can_be_submitted.
  assert (Hpos : forall s m e, numeric_regex s = true -> parseDecimal s = Dec m e -> 0 < m ->
                               rounds_to_zero m e = false -> positive_binary64 s).
  { intros s m e H1 H2 H3 H4. split; [done|]. by exists m, e. }
  split; [apply name_regex_sound; reflexivity|]. split; [reflexivity|].
  split; [apply (Hpos _ 30 0); [reflexivity | reflexivity | lia | reflexivity]|].
  split; [apply (Hpos _ 165 0); [reflexivity | reflexivity | lia | reflexivity]|].
  split; [apply (Hpos _ 60 0); [reflexivity | reflexivity | lia | reflexivity]|].
  split; [apply (Hpos _ 75 (-1)); [reflexivity | reflexivity | lia | vm_compute; reflexivity]|].
  split; [apply (Hpos _ 225 (-2)); [reflexivity | reflexivity | lia | vm_compute; reflexivity]|].
  repeat split; discriminate.
Defined.

(** ** The image service *)

Lemma length_append (s s' : string) :
  String.length (s +:+ s') = (String.length s + String.length s')%nat.
Proof. induction s as [|c s IH]; [reflexivity|]. rewrite append_cons. cbn. by rewrite IH. Qed.

Lemma append_inj_l (s a b : string) : s +:+ a = s +:+ b -> a = b.
Proof. induction s as [|c s IH]; [done|]. rewrite !append_cons. intros [= H]. auto. Qed.

Lemma append_inj_r (s : string) : forall a b, a +:+ s = b +:+ s -> a = b.
Proof.
  induction a as [|c a IH]; intros [|c' b] H.
  - reflexivity.
  - apply (f_equal String.length) in H. rewrite !length_append in H. cbn in H. lia.
  - apply (f_equal String.length) in H. rewrite !length_append in H. cbn in H. lia.
  - rewrite !append_cons in H. injection H as -> H. f_equal. by apply IH.
Qed.

Lemma percent_encode_cons (c : ascii) (r : string) :
  percent_encode (String c r)
  = (if is_unreserved c then String c EmptyString else percent_byte c) +:+ percent_encode r.
Proof. reflexivity. Qed.

Lemma percent_piece_safe (c : ascii) :
  all_chars url_safe (if is_unreserved c then String c EmptyString else percent_byte c) = true.
Proof. destruct c as [[] [] [] [] [] [] [] []]; vm_compute; reflexivity. Qed.

Lemma percent_encode_safe (s : string) : all_chars url_safe (percent_encode s) = true.
Proof.
  induction s as [|c r IH]; [reflexivity|].
  by rewrite percent_encode_cons, all_chars_app, percent_piece_safe, IH.
Qed.

Lemma percent_decode_piece (c : ascii) (r : string) :
  percent_decode ((if is_unreserved c then String c EmptyString else percent_byte c) +:+ r)
  = String c (percent_decode r).
Proof. destruct c as [[] [] [] [] [] [] [] []]; reflexivity. Qed.

Lemma percent_decode_encode (s : string) : percent_decode (percent_encode s) = s.
Proof.
  induction s as [|c r IH]; [reflexivity|].
  by rewrite percent_encode_cons, percent_decode_piece, IH.
Qed.

Lemma occurrences_char_cons (x c : ascii) (r : string) :
  occurrences (str1 x) (String c r)
  = ((if Ascii.eqb x c then 1 else 0) + occurrences (str1 x) r)%nat.
Proof.
  change (occurrences (str1 x) (String c r))
    with ((if strip_prefix (str1 x) (String c r) is Some _ then 1 else 0)
          + occurrences (str1 x) r)%nat.
  change (strip_prefix (str1 x) (String c r))
    with (if Ascii.eqb x c then strip_prefix "" r else None).
  destruct (Ascii.eqb x c); [by destruct r | reflexivity].
Qed.

Lemma occurrences_char_app (x : ascii) (s s' : string) :
  occurrences (str1 x) (s +:+ s')
  = (occurrences (str1 x) s + occurrences (str1 x) s')%nat.
Proof.
  induction s as [|c s IH]; [reflexivity|].
  rewrite append_cons, !occurrences_char_cons, IH. lia.
Qed.

Lemma occurrences_char_none (P : ascii -> bool) (x : ascii) (s : string) :
  P x = false -> all_chars P s = true -> occurrences (str1 x) s = 0%nat.
Proof.
  intros Hx. induction s as [|c s IH]; [reflexivity|]. cbn [all_chars].
  intros [Hc Hs]%andb_prop. rewrite occurrences_char_cons, IH by done.
  destruct (Ascii.eqb_spec x c) as [<-|]; [congruence | reflexivity].
Qed.

(** X15.  A URL that [generateImageUrl] returns is the fixed address, the
    encoded prompt and the fixed query; the encoded prompt is made of
    letters, digits, [- _ . ! ~ * ' ( )] and percent escapes only, so
    whatever the item name, the type and the gender are, the URL has one
    question mark and two ampersands, those of the fixed query, and the
    slashes of the fixed address only. *)
Theorem image_url_is_wellformed (prompt type gender url : string) :
  generateImageUrl prompt type gender = Some url ->
  exists encoded,
    url = "https://image.pollinations.ai/prompt/" +:+ encoded
          +:+ "?width=512&height=512&nologo=true"
    /\ encoded = percent_encode (enhancedPrompt prompt type gender)
    /\ all_chars url_safe encoded = true
    /\ occurrences "?" url = 1%nat
    /\ occurrences "&" url = 2%nat
    /\ occurrences "/" url = 4%nat
    /\ occurrences "#" url = 0%nat.
Proof.
  unfold generateImageUrl, encodeURIComponent.
  destruct (has_lone_surrogate _); [discriminate|]. cbn. intros [= <-].
  exists (percent_encode (enhancedPrompt prompt type gender)).
  pose proof (percent_encode_safe (enhancedPrompt prompt type gender)) as Hsafe.
  split; [reflexivity|]. split; [reflexivity|]. split; [exact Hsafe|].
  unfold IMAGE_URL_PREFIX, IMAGE_URL_SUFFIX.
  assert (Hcount : forall x : ascii, url_safe x = false ->
    occurrences (str1 x)
      ("https://image.pollinations.ai/prompt/"
       +:+ percent_encode (enhancedPrompt prompt type gender)
       +:+ "?width=512&height=512&nologo=true")
    = (occurrences (str1 x) "https://image.pollinations.ai/prompt/"
       + occurrences (str1 x) "?width=512&height=512&nologo=true")%nat).
  { intros x Hx. rewrite !occurrences_char_app, (occurrences_char_none url_safe x _ Hx Hsafe).
    lia. }
  split; [exact (Hcount "?"%char eq_refl)|]. split; [exact (Hcount "&"%char eq_refl)|].
  split; [exact (Hcount "/"%char eq_refl) | exact (Hcount "#"%char eq_refl)].
Qed.

Lemma image_url_is_wellformed_witness :
  exists url, generateImageUrl "Fish & Chips? #1" "meal" "" = Some url
              /\ occurrences "?" url = 1%nat /\ occurrences "&" url = 2%nat.
Proof.
  destruct (generateImageUrl "Fish & Chips? #1" "meal" "") as [url|] eqn:E;
    [|vm_compute in E; discriminate].
  destruct (image_url_is_wellformed _ _ _ url E) as (enc & _ & _ & _ & H1 & H2 & _).
  exists url. repeat split; assumption.
Defined.

Lemma enhancedPrompt_inj (prompt prompt' type gender : string) :
  enhancedPrompt prompt type gender = enhancedPrompt prompt' type gender -> prompt = prompt'.
Proof.
  unfold enhancedPrompt. destruct (String.eqb type "exercise").
  - cbn zeta. intros H. do 3 apply append_inj_l in H. by apply append_inj_r in H.
  - intros H. apply append_inj_l in H. by apply append_inj_r in H.
Qed.

(** X16.  For a given type and gender, two item names that get the same URL
    from [generateImageUrl] are the same name: no two exercises, and no two
    meals, share an image address. *)
Theorem image_url_identifies_the_item (prompt prompt' type gender url : string) :
  generateImageUrl prompt type gender = Some url ->
  generateImageUrl prompt' type gender = Some url ->
  prompt = prompt'.
Proof.
  unfold generateImageUrl, encodeURIComponent.
  destruct (has_lone_surrogate (enhancedPrompt prompt _ _)); [discriminate|].
  destruct (has_lone_surrogate (enhancedPrompt prompt' _ _)); [discriminate|].
  cbn. intros [= <-] [= H]. apply append_inj_l, append_inj_r in H.
  apply (f_equal percent_decode) in H. rewrite !percent_decode_encode in H.
  symmetry. by apply enhancedPrompt_inj in H.
Qed.

Lemma image_url_identifies_the_item_witness :
  generateImageUrl "Plank" "exercise" "Female" <> None /\ "Plank" = "Plank".
Proof.
  destruct (generateImageUrl "Plank" "exercise" "Female") as [url|] eqn:E;
    [|vm_compute in E; discriminate].
  split; [discriminate|].
  exact (image_url_identifies_the_item "Plank" "Plank" "exercise" "Female" url E E).
Defined.

(** ** The image modal *)

Lemma afterImageEvents_snoc (evs : list ImageEvent) (ev : ImageEvent) (st : ModalState) :
  afterImageEvents (evs ++ [ev]) st = onImageEvent ev (afterImageEvents evs st).
Proof. unfold afterImageEvents. by rewrite fold_left_app. Qed.

Lemma modal_state_after (evs : list ImageEvent) (url : string) :
  let final := afterImageEvents evs {| isLoading := true; hasError := false; imageUrl := url |} in
  imageUrl final = url
  /\ isLoading final = match evs with [] => true | _ => false end
  /\ hasError final = existsb is_failure evs.
Proof.
  induction evs as [|ev evs IH] using rev_ind; [by repeat split|].
  cbn zeta in *. rewrite afterImageEvents_snoc, existsb_app. destruct IH as (Hurl & _ & Her).
  cbn [existsb is_failure].
  replace (match evs ++ [ev] with [] => true | _ => false end) with false by (by destruct evs).
  destruct ev; cbn [onImageEvent handleImageLoad handleImageError isLoading hasError imageUrl].
  - by rewrite !orb_false_r.
  - by rewrite !orb_true_r.
Qed.

(** X17.  After the modal is opened on an item, its image element has the
    URL of that item and, whatever load and error events follow, exactly
    one of the spinner, the error notice and the image is shown: the
    spinner until the first event, the error notice once an error has come
    (a later load does not clear it), the image otherwise. *)
Theorem modal_shows_one_view (itemName type userGender : string) (st st' : ModalState)
    (evs : list ImageEvent) :
  itemName <> "" ->
  openEffect true itemName type userGender st = Some st' ->
  let final := afterImageEvents evs st' in
  generateImageUrl itemName type userGender = Some (imageUrl final)
  /\ showsSpinner final = match evs with [] => true | _ => false end
  /\ showsError final = match evs with [] => false | _ => existsb is_failure evs end
  /\ showsImage final = match evs with [] => false | _ => negb (existsb is_failure evs) end.
Proof.
  intros Hitem. unfold openEffect. rewrite (nonempty_truthy _ Hitem). cbn [andb].
  destruct (generateImageUrl itemName type userGender) as [url|]; [|discriminate].
  cbn. intros [= <-].
  destruct (modal_state_after evs url) as (Hurl & Hld & Her).
  unfold showsSpinner, showsError, showsImage. rewrite Hurl, Hld, Her.
  split; [done|]. destruct evs as [|e0 evs0]; [done|]. by rewrite andb_true_r.
Qed.

Lemma modal_shows_one_view_witness :
  exists st',
    openEffect true "Plank" "exercise" "" initialModal = Some st'
    /\ showsSpinner st' = true
    /\ showsImage (afterImageEvents [ImageLoaded] st') = true
    /\ showsError (afterImageEvents [ImageFailed; ImageLoaded] st') = true.
Proof.
  destruct (openEffect true "Plank" "exercise" "" initialModal) as [st'|] eqn:E;
    [|vm_compute in E; discriminate].
  exists st'. split; [reflexivity|].
  destruct (modal_shows_one_view "Plank" "exercise" "" initialModal st' []
              ltac:(discriminate) E) as (_ & H1 & _).
  destruct (modal_shows_one_view "Plank" "exercise" "" initialModal st' [ImageLoaded]
              ltac:(discriminate) E) as (_ & _ & _ & H2).
  destruct (modal_shows_one_view "Plank" "exercise" "" initialModal st'
              [ImageFailed; ImageLoaded] ltac:(discriminate) E) as (_ & _ & H3 & _).
  split; [exact H1 | split; [exact H2 | exact H3]].
Defined.

(** ** The theme switch *)

Lemma themeEffect_applied (theme : string) (b : Browser) :
  theme <> "" -> theme_applied (theme, themeEffect theme b).
Proof.
  intros Hne. unfold theme_applied, themeEffect. cbn [fst snd localStorage rootClasses].
  split; [by rewrite lookup_insert_eq|]. split; [|done].
  destruct (String.eqb_spec theme "dark") as [->|Hd].
  - rewrite elem_of_union, elem_of_singleton. tauto.
  - rewrite elem_of_difference, elem_of_singleton. tauto.
Qed.

Lemma savedTheme_nonempty (b : Browser) : savedTheme b <> "".
Proof.
  unfold savedTheme. destruct (localStorage b !! "theme") as [s|]; [|done].
  destruct (truthy s) eqn:E; [by apply truthy_nonempty | done].
Qed.

Lemma setTheme_applied (c : ThemeClick) (nav : string * Browser) :
  theme_applied nav -> theme_applied (setTheme (clicked c) nav) /\ fst (setTheme (clicked c) nav) = clicked c.
Proof.
  intros H. unfold setTheme. destruct (String.eqb_spec (clicked c) (fst nav)) as [E|E].
  - by rewrite <- E.
  - split; [|done]. apply themeEffect_applied. by destruct c.
Qed.

Lemma themeEffect_frame (theme : string) (b : Browser) :
  (forall k, k <> "theme" -> localStorage (themeEffect theme b) !! k = localStorage b !! k)
  /\ (forall cls, cls <> "dark" -> cls ∈ rootClasses (themeEffect theme b) <-> cls ∈ rootClasses b).
Proof.
  unfold themeEffect. cbn [localStorage rootClasses]. split.
  - intros k Hk. by rewrite lookup_insert_ne.
  - intros cls Hc. destruct (String.eqb theme "dark").
    + rewrite elem_of_union, elem_of_singleton. tauto.
    + rewrite elem_of_difference, elem_of_singleton. tauto.
Qed.

Lemma navbarSession_snoc (clicks : list ThemeClick) (c : ThemeClick) (b : Browser) :
  navbarSession (clicks ++ [c]) b = setTheme (clicked c) (navbarSession clicks b).
Proof. unfold navbarSession. by rewrite fold_left_app. Qed.

Lemma navbarSession_applied (clicks : list ThemeClick) (b : Browser) :
  theme_applied (navbarSession clicks b).
Proof.
  induction clicks as [|c clicks IH] using rev_ind.
  - apply themeEffect_applied, savedTheme_nonempty.
  - rewrite navbarSession_snoc. by apply setTheme_applied.
Qed.

(** X18.  After the navigation bar is mounted and after any clicks on the
    two buttons of the switch, the theme is the one of the last click (the
    saved one, or dark when none is saved, if there was no click), local
    storage holds it under the key theme, the document root has the class
    dark exactly when the theme is dark, and no other key of the storage and
    no other class of the root has been touched. *)
Theorem theme_is_applied_and_saved (clicks : list ThemeClick) (b : Browser) :
  let nav := navbarSession clicks b in
  fst nav = match last clicks with Some c => clicked c | None => savedTheme b end
  /\ localStorage (snd nav) !! "theme" = Some (fst nav)
  /\ ("dark" ∈ rootClasses (snd nav) <-> fst nav = "dark")
  /\ (forall k, k <> "theme" -> localStorage (snd nav) !! k = localStorage b !! k)
  /\ (forall cls, cls <> "dark" -> cls ∈ rootClasses (snd nav) <-> cls ∈ rootClasses b).
Proof.
  intros nav. subst nav.
  destruct (navbarSession_applied clicks b) as (Hst & Hcl & _).
  split; [|split; [exact Hst | split; [exact Hcl|]]].
  - destruct clicks as [|c0 clicks0] using rev_ind; [reflexivity|].
    rewrite navbarSession_snoc, last_snoc.
    apply (setTheme_applied c0), navbarSession_applied.
  - clear Hst Hcl. induction clicks as [|c clicks IH] using rev_ind.
    + apply themeEffect_frame.
    + rewrite navbarSession_snoc. unfold setTheme.
      destruct (String.eqb (clicked c) (fst (navbarSession clicks b))); [exact IH|].
      cbn [snd]. destruct IH as [IH1 IH2].
      destruct (themeEffect_frame (clicked c) (snd (navbarSession clicks b))) as [F1 F2].
      split.
      * intros k Hk. by rewrite F1, IH1.
      * intros cls Hc. by rewrite F2, IH2.
Qed.

(** X19.  The theme survives a reload: mounting the navigation bar again on
    the browser a session has left gives the theme the session ended with,
    and changes nothing in the storage or the classes of the root. *)
Theorem theme_survives_reload (clicks : list ThemeClick) (b : Browser) :
  let nav := navbarSession clicks b in
  fst (mountNavbar (snd nav)) = fst nav
  /\ localStorage (snd (mountNavbar (snd nav))) = localStorage (snd nav)
  /\ rootClasses (snd (mountNavbar (snd nav))) = rootClasses (snd nav).
Proof.
  intros nav. subst nav. destruct (navbarSession_applied clicks b) as (Hst & Hcl & Hne).
  assert (Hsaved : savedTheme (snd (navbarSession clicks b)) = fst (navbarSession clicks b)).
  { unfold savedTheme. rewrite Hst. by rewrite (nonempty_truthy _ Hne). }
  unfold mountNavbar. cbn [fst snd]. rewrite Hsaved. split; [done|].
  unfold themeEffect. cbn [localStorage rootClasses]. split.
  - by apply insert_id.
  - destruct (String.eqb_spec (fst (navbarSession clicks b)) "dark") as [E|E].
    + apply Hcl in E. apply set_eq. intros cls.
      rewrite elem_of_union, elem_of_singleton. split; [intros [H | ->]; done | tauto].
    + assert (Hno : "dark" ∉ rootClasses (snd (navbarSession clicks b)))
        by (intros H; by apply Hcl in H).
      apply set_eq. intros cls. rewrite elem_of_difference, elem_of_singleton.
      split; [tauto|]. intros H. split; [done|]. by intros ->.
Qed.

(** ** Failures of the endpoint, end to end *)

(** X20.  When the first request fails with an error that is not retryable
    (a 401, say), [generateFitnessPlan] returns the bundled fallback plan at
    once: one request, no wait, the error and the warning on the console. *)
Theorem terminal_error_gives_fallback_at_once (openai : Client) (userData : FormData)
    (t : Trace) (e : Error) :
  openai (requests t) (plan_request userData) = Throw e ->
  isRetryable e = false ->
  generateFitnessPlan openai userData t
    = (Ok FALLBACK_PLAN,
       t ++ [ Request (plan_request userData);
              Console ErrorLevel [LStr "Failed to generate fitness plan:"; LErr e];
              Console WarnLevel [LStr "Generating fallback plan due to API failure."] ]).
Proof.
  intros H He. rewrite generateFitnessPlan_unfold.
  rewrite (retry_terminal _ 2 1000 t e (t ++ [Request (plan_request userData)])); [| |done].
  - unfold fallback_outcome, FALLBACK_WARNING. by rewrite <- app_assoc.
  - unfold create. by rewrite H.
Qed.

Lemma terminal_error_gives_fallback_at_once_witness :
  fst (generateFitnessPlan always_401 ana []) = Ok FALLBACK_PLAN
  /\ requests (snd (generateFitnessPlan always_401 ana [])) = 1%nat
  /\ waits (snd (generateFitnessPlan always_401 ana [])) = [].
Proof.
  rewrite (terminal_error_gives_fallback_at_once always_401 ana []
             (APIError (Some 401) "Unauthorized") eq_refl eq_refl).
  repeat split.
Defined.

(** X21.  When every request fails with a retryable error (the network is
    down, the endpoint answers 500 or 429), [generateFitnessPlan] returns
    the bundled fallback plan after three requests and waits of 1000 ms and
    2000 ms, and logs the error of the third request. *)
Theorem exhausted_retries_give_fallback (openai : Client) (userData : FormData) (t : Trace)
    (e : nat -> Error) :
  (forall n, openai n (plan_request userData) = Throw (e n)) ->
  (forall n, isRetryable (e n) = true) ->
  generateFitnessPlan openai userData t
    = (Ok FALLBACK_PLAN,
       t ++ [ Request (plan_request userData);
              Console LogLevel [LStr "API call failed. Retrying in 1000ms... (2 attempts left)"];
              Wait 1000;
              Request (plan_request userData);
              Console LogLevel [LStr "API call failed. Retrying in 2000ms... (1 attempts left)"];
              Wait 2000;
              Request (plan_request userData);
              Console ErrorLevel [LStr "Failed to generate fitness plan:";
                                  LErr (e (requests t + 2)%nat)];
              Console WarnLevel [LStr "Generating fallback plan due to API failure."] ])
  /\ origin_of (snd (generateFitnessPlan openai userData t)) = Fallback.
Proof.
  intros Hfail Hretry.
  assert (Hrun : generateFitnessPlan openai userData t
                 = fallback_outcome (e (requests t + 2)%nat)
                     (t ++ failing_schedule (plan_request userData) 2 1000)).
  { by rewrite generateFitnessPlan_unfold,
         (retry_always_failing openai (plan_request userData) e Hfail Hretry). }
  split.
  - rewrite Hrun. unfold fallback_outcome, FALLBACK_WARNING. by rewrite <- app_assoc.
  - rewrite Hrun. apply origin_of_fallback_outcome.
Qed.

Lemma exhausted_retries_give_fallback_witness :
  fst (generateFitnessPlan always_500 ana []) = Ok FALLBACK_PLAN
  /\ requests (snd (generateFitnessPlan always_500 ana [])) = 3%nat
  /\ waits (snd (generateFitnessPlan always_500 ana [])) = [1000; 2000].
Proof.
  destruct (exhausted_retries_give_fallback always_500 ana []
              (fun _ => APIError (Some 500) "Internal Server Error")) as [H _];
    [reflexivity | reflexivity |].
  rewrite H. repeat split.
Defined.
